(** * Powerlytics: the anomaly-scoring engine ([anomaly_detector.py])

    A shallow embedding of [AnomalyDetector] and of the three detectors it
    combines, with the properties the design document states about them.

    The engine computes on [numpy] double-precision values.  The arithmetic
    is taken as an interface ([NumOps]): the operators and the [numpy]
    reductions the source calls.  Properties that depend on the order of
    numbers are proved for every implementation of the interface that obeys
    the laws of exact arithmetic ([NumLaws]); the real numbers are such an
    implementation ([R_ops], [R_laws]).  Rounding, NaN and infinities are
    outside these laws. *)

From Stdlib Require Import ZArith QArith Qreals Reals Lra Lia.
From Stdlib Require Floats Uint63.
From stdpp Require Import base option list gmap strings pretty.

Local Open Scope string_scope.
Local Open Scope list_scope.
Local Open Scope nat_scope.

(** ** The numeric interface *)

(** What the source uses of Python floats and of [numpy]: literals,
    [+ - * /], [abs], the comparisons, [np.mean], [np.std], [np.median],
    [np.polyfit(x, y, 1)] and the format specification [:.1f]. *)
Class NumOps (F : Type) := {
  lit : Q -> F;
  fadd : F -> F -> F;
  fsub : F -> F -> F;
  fmul : F -> F -> F;
  fdiv : F -> F -> F;
  fabs : F -> F;
  fleb : F -> F -> bool;
  fltb : F -> F -> bool;
  feqb : F -> F -> bool;
  np_mean : list F -> F;
  np_std : list F -> F;
  np_median : list F -> F;
  np_polyfit1 : list F -> list F -> F * F;
  fmt1 : F -> string
}.

(** Python's [a >= b] and [a > b]. *)
Definition fgeb {F} `{NumOps F} (a b : F) : bool := fleb b a.
Definition fgtb {F} `{NumOps F} (a b : F) : bool := fltb b a.

(** Python's builtin [min(a, b)]: the first argument unless the second is
    strictly smaller. *)
Definition py_min {F} `{NumOps F} (a b : F) : F := if fltb b a then b else a.

(** An [int] used where a float is expected ([len(window_data)],
    [np.arange]). *)
Definition of_int {F} `{NumOps F} (n : nat) : F := lit (inject_Z (Z.of_nat n)).

(** [np.arange(n)]. *)
Definition np_arange {F} `{NumOps F} (n : nat) : list F := map of_int (seq 0 n).

(** The laws of exact arithmetic the proofs use. *)
Class NumLaws (F : Type) `{NumOps F} : Prop := {
  feqb_eq : forall x y : F, feqb x y = true <-> x = y;
  fleb_total : forall x y : F, fleb x y = true \/ fleb y x = true;
  fleb_trans : forall x y z : F, fleb x y = true -> fleb y z = true -> fleb x z = true;
  fleb_antisym : forall x y : F, fleb x y = true -> fleb y x = true -> x = y;
  fltb_fleb : forall x y : F, fltb x y = negb (fleb y x);
  lit_fleb : forall p q : Q, fleb (lit p) (lit q) = Qle_bool p q;
  fmul_comm : forall x y : F, fmul x y = fmul y x;
  fabs_nonneg : forall x : F, fleb (lit 0) (fabs x) = true;
  fmul_nonneg : forall x y : F,
    fleb (lit 0) x = true -> fleb (lit 0) y = true -> fleb (lit 0) (fmul x y) = true;
  fdiv_nonneg : forall x y : F,
    fleb (lit 0) x = true -> fleb (lit 0) y = true -> fleb (lit 0) (fdiv x y) = true;
  np_std_nonneg : forall l : list F, fleb (lit 0) (np_std l) = true;
  np_std_const : forall (c : F) (l : list F), Forall (eq c) l -> np_std l = lit 0;
  np_median_nonneg : forall l : list F,
    Forall (fun x => fleb (lit 0) x = true) l -> fleb (lit 0) (np_median l) = true
}.

(** What holds of exact arithmetic and of IEEE 754 doubles alike, NaN and
    the infinities included: the order of the three cutoffs, and the signs
    of the operations a score is made of.  [fltb x (lit 0) = false] reads
    "[x] is not below zero": [x >= 0], or [x] is NaN. *)
Class IEEELaws (F : Type) `{NumOps F} : Prop := {
  reaches_3_2 : forall z : F, fleb (lit 3) z = true -> fleb (lit 2) z = true;
  reaches_4_3 : forall z : F, fleb (lit 4) z = true -> fleb (lit 3) z = true;
  below_2 : forall z : F, fltb z (lit 2) = true -> fleb (lit 2) z = false;
  zero_not_neg : fltb (lit (F:=F) 0) (lit 0) = false;
  scale_not_neg : fltb (lit (F:=F) 0.6745) (lit 0) = false;
  fabs_not_neg : forall x : F, fltb (fabs x) (lit 0) = false;
  fmul_not_neg : forall x y : F,
    fltb x (lit 0) = false -> fltb y (lit 0) = false ->
    fltb (fmul x y) (lit 0) = false;
  fdiv_not_neg : forall x y : F,
    fltb x (lit 0) = false -> fltb y (lit 0) = false ->
    feqb y (lit 0) = false -> fltb (fdiv x y) (lit 0) = false;
  np_std_not_neg : forall l : list F, fltb (np_std l) (lit 0) = false;
  np_median_not_neg : forall l : list F,
    Forall (fun x => fltb x (lit 0) = false) l ->
    fltb (np_median l) (lit 0) = false
}.

(** ** The real numbers as an implementation of the interface *)

Module RealNum.

Definition Rleb (x y : R) : bool := if Rle_dec x y then true else false.
Definition Rltb (x y : R) : bool := if Rlt_dec x y then true else false.
Definition Reqb (x y : R) : bool := if Req_dec_T x y then true else false.

Definition Rsum (l : list R) : R := fold_right Rplus 0%R l.

(** [np.mean]: the sum over the count. *)
Definition mean (l : list R) : R := (Rsum l / INR (length l))%R.

(** [np.std] with its default [ddof=0]: the population standard deviation. *)
Definition std (l : list R) : R :=
  sqrt (mean (map (fun x => ((x - mean l) * (x - mean l))%R) l)).

Fixpoint insert_sorted (x : R) (l : list R) : list R :=
  match l with
  | [] => [x]
  | y :: l' => if Rle_dec x y then x :: l else y :: insert_sorted x l'
  end.

Definition sort (l : list R) : list R := fold_right insert_sorted [] l.

(** [np.median]: the middle element of the sorted data, or the mean of the
    two middle elements. *)
Definition median (l : list R) : R :=
  let s := sort l in
  let n := length s in
  if Nat.even n
  then ((nth (n / 2 - 1) s 0 + nth (n / 2) s 0) / 2)%R
  else nth (n / 2) s 0%R.

(** [np.polyfit(x, y, 1)]: slope and intercept of the least-squares line. *)
Definition polyfit1 (xs ys : list R) : R * R :=
  let n := INR (length xs) in
  let sx := Rsum xs in
  let sy := Rsum ys in
  let sxy := Rsum (zip_with Rmult xs ys) in
  let sxx := Rsum (map (fun x => (x * x)%R) xs) in
  let slope := ((n * sxy - sx * sy) / (n * sxx - sx * sx))%R in
  (slope, ((sy - slope * sx) / n)%R).

(** The integer nearest to [x], ties to the even one. *)
Definition round_half_even (x : R) : Z :=
  let f := (up x - 1)%Z in
  let d := (x - IZR f)%R in
  if Rlt_dec d (1 / 2) then f
  else if Rlt_dec (1 / 2) d then (f + 1)%Z
  else if Z.even f then f else (f + 1)%Z.

(** The format specification [:.1f]: one digit after the point. *)
Definition format1 (x : R) : string :=
  let t := round_half_even (Rabs x * 10) in
  (if Rlt_dec x 0 then "-" else "") +:+
  pretty (t / 10)%Z +:+ "." +:+ pretty (t mod 10)%Z.

End RealNum.

#[export] Instance R_ops : NumOps R := {|
  lit := Q2R;
  fadd := Rplus;
  fsub := Rminus;
  fmul := Rmult;
  fdiv := Rdiv;
  fabs := Rabs;
  fleb := RealNum.Rleb;
  fltb := RealNum.Rltb;
  feqb := RealNum.Reqb;
  np_mean := RealNum.mean;
  np_std := RealNum.std;
  np_median := RealNum.median;
  np_polyfit1 := RealNum.polyfit1;
  fmt1 := RealNum.format1
|}.

(** ** Double-precision floats as an implementation of the interface

    Rocq's primitive floats are IEEE 754 binary64, the [float64] of
    [numpy].  The reductions follow [numpy]'s definitions with the sum taken
    left to right, which is the order [numpy] uses below eight elements;
    from eight elements on [numpy] adds pairwise and the last bits of a mean
    or a standard deviation can differ.  [polyfit1] solves the normal
    equations where [numpy] calls a least-squares solver, so the last bits
    of its coefficients can differ too; on a constant window it gives the
    slope 0 where [numpy] can give a rounding residue.  This implementation
    runs the engine on concrete readings; it obeys [IEEELaws] and does not
    obey [NumLaws]. *)

Module FloatNum.

Abbreviation float := PrimFloat.float.

Definition of_Z (z : Z) : float :=
  match z with
  | Z0 => PrimFloat.zero
  | Zpos _ => PrimFloat.of_uint63 (Uint63.of_Z z)
  | Zneg p => PrimFloat.opp (PrimFloat.of_uint63 (Uint63.of_Z (Zpos p)))
  end.

(** A decimal literal: both parts are exact, the division rounds once. *)
Definition of_Q (q : Q) : float :=
  PrimFloat.div (of_Z (Qnum q)) (of_Z (Zpos (Qden q))).

Definition sum (l : list float) : float := fold_left PrimFloat.add l PrimFloat.zero.

Definition mean (l : list float) : float :=
  PrimFloat.div (sum l) (of_Z (Z.of_nat (length l))).

Definition std (l : list float) : float :=
  let m := mean l in
  let x := map (fun a => PrimFloat.sub a m) l in
  PrimFloat.sqrt (mean (map (fun a => PrimFloat.mul a a) x)).

Fixpoint insert_sorted (x : float) (l : list float) : list float :=
  match l with
  | [] => [x]
  | y :: l' => if PrimFloat.leb x y then x :: l else y :: insert_sorted x l'
  end.

Definition sort (l : list float) : list float := fold_right insert_sorted [] l.

(** [np.median]: NaN as soon as one element is NaN. *)
Definition median (l : list float) : float :=
  if existsb (fun x => negb (PrimFloat.eqb x x)) l then PrimFloat.nan
  else
    let s := sort l in
    let n := length s in
    if Nat.even n
    then mean [nth (n / 2 - 1) s PrimFloat.nan; nth (n / 2) s PrimFloat.nan]
    else nth (n / 2) s PrimFloat.nan.

Definition polyfit1 (xs ys : list float) : float * float :=
  let n := of_Z (Z.of_nat (length xs)) in
  let sx := sum xs in
  let sy := sum ys in
  let sxy := sum (zip_with PrimFloat.mul xs ys) in
  let sxx := sum (map (fun x => PrimFloat.mul x x) xs) in
  let slope :=
    PrimFloat.div (PrimFloat.sub (PrimFloat.mul n sxy) (PrimFloat.mul sx sy))
                  (PrimFloat.sub (PrimFloat.mul n sxx) (PrimFloat.mul sx sx)) in
  (slope, PrimFloat.div (PrimFloat.sub sy (PrimFloat.mul slope sx)) n).

(** [m * 2^e * 10] rounded to the nearest integer, ties to even. *)
Definition tenths (m : positive) (e : Z) : Z :=
  let num := (10 * Zpos m)%Z in
  if (0 <=? e)%Z then (num * 2 ^ e)%Z
  else
    let den := (2 ^ (- e))%Z in
    let q := (num / den)%Z in
    let r := (num mod den)%Z in
    if (2 * r <? den)%Z then q
    else if (den <? 2 * r)%Z then (q + 1)%Z
    else if Z.even q then q else (q + 1)%Z.

(** The format specification [:.1f]. *)
Definition format1 (x : float) : string :=
  match FloatOps.Prim2SF x with
  | SpecFloat.S754_nan => "nan"
  | SpecFloat.S754_infinity s => if s then "-inf" else "inf"
  | SpecFloat.S754_zero s => if s then "-0.0" else "0.0"
  | SpecFloat.S754_finite s m e =>
      let t := tenths m e in
      (if s then "-" else "") +:+ pretty (t / 10)%Z +:+ "." +:+ pretty (t mod 10)%Z
  end.

End FloatNum.

#[export] Instance float_ops : NumOps PrimFloat.float := {|
  lit := FloatNum.of_Q;
  fadd := PrimFloat.add;
  fsub := PrimFloat.sub;
  fmul := PrimFloat.mul;
  fdiv := PrimFloat.div;
  fabs := PrimFloat.abs;
  fleb := PrimFloat.leb;
  fltb := PrimFloat.ltb;
  feqb := PrimFloat.eqb;
  np_mean := FloatNum.mean;
  np_std := FloatNum.std;
  np_median := FloatNum.median;
  np_polyfit1 := FloatNum.polyfit1;
  fmt1 := FloatNum.format1
|}.

(** ** The data model *)

(** [datetime.datetime]; the engine reads only [hour]. *)
Record datetime := mk_datetime {
  year : nat;
  month : nat;
  day : nat;
  hour : nat;
  minute : nat;
  second : nat
}.

(** The exceptions of the model, each with the text [str(e)] gives: the
    engine's own code can raise [IndexError] and [KeyError]; [ValueError]
    stands for the rejection by a validating constructor, which the design
    document describes and the source does not have. *)
Inductive exn :=
| IndexError (msg : string)
| KeyError (key : string)
| ValueError (msg : string).

Definition exn_str (e : exn) : string :=
  match e with
  | IndexError msg => msg
  | KeyError key => "'" +:+ key +:+ "'"
  | ValueError msg => msg
  end.

Inductive outcome (A : Type) :=
| Ok (a : A)
| Raise (e : exn).
Arguments Ok {A} a.
Arguments Raise {A} e.

Section Engine.

Context {F : Type} `{NumOps F}.

(** One element of [data_points], a [Dict[str, Any]].  The engine reads the
    keys ['power_w'] (a float) and ['timestamp'] (a [datetime]); either may
    be absent from the dictionary. *)
Record DataPoint := mk_point {
  dp_power_w : option F;
  dp_timestamp : option datetime
}.

(** The dataclass [AnomalyResult]. *)
Record AnomalyResult := mk_result {
  device_id : string;
  timestamp : datetime;
  power_w : F;
  anomaly_score : F;
  severity : string;
  type : string;
  confidence : F;
  explanation : string
}.

(** The attributes [__init__] gives an [AnomalyDetector]: the worker count of
    its [ThreadPoolExecutor] and the thresholds dictionary. *)
Record AnomalyDetector := mk_detector {
  executor : nat;
  anomaly_thresholds : gmap string F
}.

(** What a method call can read and change: the instance, and the lines the
    module's [logger] has written. *)
Record state := mk_state {
  self : AnomalyDetector;
  logged : list string
}.

(** ** Methods: state passing with exceptions *)

Definition M (A : Type) : Type := state -> outcome A * state.

Definition ret {A} (a : A) : M A := fun s => (Ok a, s).

Definition raise {A} (e : exn) : M A := fun s => (Raise e, s).

Definition bind {A B} (m : M A) (k : A -> M B) : M B :=
  fun s =>
    match m s with
    | (Ok a, s') => k a s'
    | (Raise e, s') => (Raise e, s')
    end.

Notation "x <- m ;; k" := (bind m (fun x => k))
  (at level 100, m at next level, right associativity).

(** [try: m except Exception as e: handler e]. *)
Definition try_except {A} (m : M A) (handler : exn -> M A) : M A :=
  fun s =>
    match m s with
    | (Ok a, s') => (Ok a, s')
    | (Raise e, s') => handler e s'
    end.

(** [logger.error(msg)]. *)
Definition logger_error (msg : string) : M unit :=
  fun s => (Ok tt, mk_state (self s) (logged s ++ [msg])).

(** [self.anomaly_thresholds[key]]. *)
Definition threshold (key : string) : M F :=
  fun s =>
    match anomaly_thresholds (self s) !! key with
    | Some v => (Ok v, s)
    | None => (Raise (KeyError key), s)
    end.

(** [l[i]] on a Python list, with [0 <= i]. *)
Definition list_getitem {A} (l : list A) (i : nat) : M A :=
  match l !! i with
  | Some x => ret x
  | None => raise (IndexError "list index out of range")
  end.

(** [a[i]] on a one-dimensional [ndarray], with [0 <= i]. *)
Definition ndarray_getitem (a : list F) (i : nat) : M F :=
  match a !! i with
  | Some x => ret x
  | None =>
      raise (IndexError ("index " +:+ pretty i +:+
                         " is out of bounds for axis 0 with size " +:+
                         pretty (length a)))
  end.

(** [l[a:b]] with [0 <= a]. *)
Definition slice {A} (l : list A) (a b : nat) : list A := take (b - a) (drop a l).

(** [range(a, b)]. *)
Definition range (a b : nat) : list nat := seq a (b - a).

(** [for x in xs: acc = body x acc], where [acc] stands for the local
    variables the loop body updates. *)
Fixpoint for_each {A B} (xs : list A) (body : A -> B -> M B) (acc : B) : M B :=
  match xs with
  | [] => ret acc
  | x :: xs' => acc' <- body x acc ;; for_each xs' body acc'
  end.

(** ** [AnomalyDetector.__init__] *)

Definition __init__ : M unit :=
  fun s =>
    (Ok tt,
     mk_state
       (mk_detector 2
          (<["low" := lit 2]> (<["medium" := lit 3]> (<["high" := lit 4]> ∅))))
       (logged s)).

(** ** [detect_realtime_anomalies] *)


(** ** [_detect_statistical_anomalies] *)

(** Lines 126-134: the severity of a z-score, [None] for [continue]. *)
Definition determine_severity (z_score : F) : M (option string) :=
  high <- threshold "high" ;;
  if fgeb z_score high then ret (Some "high")
  else
    medium <- threshold "medium" ;;
    if fgeb z_score medium then ret (Some "medium")
    else
      low <- threshold "low" ;;
      if fgeb z_score low then ret (Some "low")
      else ret None.

Definition _detect_statistical_anomalies
    (device_id : string) (power_values : list F) (timestamps : list datetime)
    : M (list AnomalyResult) :=
  let window_size := Nat.min 24 (length power_values / 2) in
  for_each (range window_size (length power_values))
    (fun i anomalies =>
       let window_data := slice power_values (i - window_size) i in
       let mean := np_mean window_data in
       let std := np_std window_data in
       if feqb std (lit 0) then ret anomalies
       else
         x <- ndarray_getitem power_values i ;;
         let z_score := fdiv (fabs (fsub x mean)) std in
         sev <- determine_severity z_score ;;
         match sev with
         | None => ret anomalies
         | Some severity =>
             ts <- list_getitem timestamps i ;;
             p <- ndarray_getitem power_values i ;;
             ret (anomalies ++
                  [mk_result device_id ts p z_score severity "statistical"
                     (py_min (lit 0.95) (fdiv z_score (lit 5)))
                     ("Power consumption " +:+ fmt1 z_score +:+
                      " standard deviations above normal")])
         end)
    [].

(** ** [_detect_trend_anomalies] *)

Definition _detect_trend_anomalies
    (device_id : string) (power_values : list F) (timestamps : list datetime)
    : M (list AnomalyResult) :=
  if length power_values <? 12 then ret []
  else
    let window_size := 6 in
    for_each (range window_size (length power_values))
      (fun i anomalies =>
         let window_data := slice power_values (i - window_size) i in
         let x := np_arange (length window_data) in
         let coeffs := np_polyfit1 x window_data in
         let trend_slope := fst coeffs in
         if fgtb (fabs trend_slope) (fmul (np_std window_data) (lit 0.5)) then
           let predicted_value :=
             fadd (fmul (fst coeffs) (of_int (length window_data))) (snd coeffs) in
           actual_value <- ndarray_getitem power_values i ;;
           let deviation := fabs (fsub actual_value predicted_value) in
           if fgtb deviation (fmul (np_std window_data) (lit 1.5)) then
             ts <- list_getitem timestamps i ;;
             ret (anomalies ++
                  [mk_result device_id ts actual_value
                     (fdiv deviation (np_std window_data)) "medium" "trend"
                     (lit 0.8)
                     ("Sudden deviation from trend: " +:+ fmt1 deviation +:+
                      "W difference")])
           else ret anomalies
         else ret anomalies)
      [].

(** ** [_detect_seasonal_anomalies] *)

(** An entry of [hourly_baselines]: the dictionary with the keys ['mean']
    and ['std']. *)
Record Baseline := mk_baseline {
  baseline_mean : F;
  baseline_std : F
}.

(** Lines 212-217: the readings of each hour of the day, with their indices. *)
Definition group_by_hour (power_values : list F) (timestamps : list datetime)
    : M (gmap nat (list (nat * F))) :=
  for_each (imap pair timestamps)
    (fun '(i, timestamp) hourly_groups =>
       let hour := hour timestamp in
       let hourly_groups :=
         match hourly_groups !! hour with
         | None => <[hour := []]> hourly_groups
         | Some _ => hourly_groups
         end in
       p <- ndarray_getitem power_values i ;;
       ret (alter (fun values => values ++ [(i, p)]) hour hourly_groups))
    ∅.

(** Lines 220-227: a baseline for each hour with at least three readings. *)
Definition baselines_of (hourly_groups : gmap nat (list (nat * F))) : gmap nat Baseline :=
  omap (fun values =>
          if 3 <=? length values then
            let power_vals := map snd values in
            Some (mk_baseline (np_mean power_vals) (np_std power_vals))
          else None)
       hourly_groups.

Definition _detect_seasonal_anomalies
    (device_id : string) (power_values : list F) (timestamps : list datetime)
    : M (list AnomalyResult) :=
  if length power_values <? 48 then ret []
  else
    hourly_groups <- group_by_hour power_values timestamps ;;
    let hourly_baselines := baselines_of hourly_groups in
    for_each (imap pair (zip timestamps power_values))
      (fun '(i, (timestamp, power)) anomalies =>
         let hour := hour timestamp in
         match hourly_baselines !! hour with
         | None => ret anomalies
         | Some baseline =>
             if fgtb (baseline_std baseline) (lit 0) then
               let z_score :=
                 fdiv (fabs (fsub power (baseline_mean baseline)))
                      (baseline_std baseline) in
               medium <- threshold "medium" ;;
               if fgeb z_score medium then
                 high <- threshold "high" ;;
                 let severity := if fgeb z_score high then "high" else "medium" in
                 ret (anomalies ++
                      [mk_result device_id timestamp power z_score severity
                         "seasonal"
                         (py_min (lit 0.9) (fdiv z_score (lit 4)))
                         ("Unusual consumption for " +:+ pretty hour +:+
                          ":00 - " +:+ fmt1 z_score +:+
                          " std devs from normal")])
               else ret anomalies
             else ret anomalies
         end)
      [].

(** ** [detect_anomalies_in_data] *)

(** Line 62: [[dp['power_w'] for dp in data_points if 'power_w' in dp]]. *)
Definition extract_power_values (data_points : list DataPoint) : list F :=
  omap dp_power_w data_points.

(** Line 63: [[dp['timestamp'] for dp in data_points if 'timestamp' in dp]]. *)
Definition extract_timestamps (data_points : list DataPoint) : list datetime :=
  omap dp_timestamp data_points.

Definition detect_anomalies_in_data
    (device_id : string) (data_points : list DataPoint)
    : M (list AnomalyResult) :=
  if length data_points <? 10 then ret []
  else
    try_except
      (let power_values := extract_power_values data_points in
       let timestamps := extract_timestamps data_points in
       if length power_values <? 10 then ret []
       else
         let power_array := power_values in
         let anomalies := [] in
         statistical_anomalies <-
           _detect_statistical_anomalies device_id power_array timestamps ;;
         let anomalies := anomalies ++ statistical_anomalies in
         trend_anomalies <-
           _detect_trend_anomalies device_id power_array timestamps ;;
         let anomalies := anomalies ++ trend_anomalies in
         seasonal_anomalies <-
           _detect_seasonal_anomalies device_id power_array timestamps ;;
         let anomalies := anomalies ++ seasonal_anomalies in
         ret anomalies)
      (fun e =>
         _ <- logger_error ("Anomaly detection failed for " +:+ device_id +:+
                            ": " +:+ exn_str e) ;;
         ret []).

(** ** [calculate_anomaly_score] *)

Definition calculate_anomaly_score
    (current_power : F) (historical_power : list F) (method : string) : M F :=
  if match historical_power with [] => true | _ => false end
     || (length historical_power <? 5)
  then ret (lit 0)
  else
    let historical_array := historical_power in
    let mean := np_mean historical_array in
    let std := np_std historical_array in
    if feqb std (lit 0) then ret (lit 0)
    else if decide (method = "zscore") then
      ret (fdiv (fabs (fsub current_power mean)) std)
    else if decide (method = "modified_zscore") then
      let median := np_median historical_array in
      let mad := np_median (map (fun x => fabs (fsub x median)) historical_array) in
      if feqb mad (lit 0) then ret (lit 0)
      else ret (fdiv (fmul (lit 0.6745) (fabs (fsub current_power median))) mad)
    else ret (lit 0).

(** ** [get_anomaly_explanation] and [get_anomaly_recommendations] *)



(** A recommendation: the dictionary with the keys ['type'], ['title'],
    ['description'], ['action'] and ['priority']. *)
Record Recommendation := mk_recommendation {
  rec_type : string;
  rec_title : string;
  rec_description : string;
  rec_action : string;
  rec_priority : string
}.

Definition get_anomaly_recommendations
    (anomaly : AnomalyResult) (device_context : gmap string string)
    : M (list Recommendation) :=
  let recommendations := [] in
  if decide (type anomaly = "statistical" /\ severity anomaly = "high") then
    ret (recommendations ++
         [mk_recommendation "immediate_action"
            "Check for Malfunctioning Equipment"
            "High power consumption may indicate equipment malfunction"
            "Inspect major appliances and electrical systems" "high"])
  else if decide (type anomaly = "trend") then
    ret (recommendations ++
         [mk_recommendation "monitoring" "Monitor Usage Patterns"
            "Track usage to identify the cause of trend change"
            "Check recent changes in usage habits or equipment" "medium"])
  else if decide (type anomaly = "seasonal") then
    ret (recommendations ++
         [mk_recommendation "optimization" "Optimize Time-Based Usage"
            "Consider shifting high-energy activities to off-peak hours"
            "Schedule major appliances during lower-cost periods" "low"])
  else ret recommendations.

(** ** The design document's descriptions

    The definitions below follow the words of the design document; the
    theorems relate them to the methods above. *)

(** Thresholds: [{low: 2.0, medium: 3.0, high: 4.0}], in ascending order. *)
Definition spec_thresholds : list (string * Q) :=
  [("low", 2%Q); ("medium", 3%Q); ("high", 4%Q)].

(** The highest tier whose cutoff the z-score reaches, if any. *)
Definition highest_tier (z : F) : option string :=
  last (map fst (List.filter (fun t => fgeb z (lit (snd t))) spec_thresholds)).

(** The order [low < medium < high] of the severity tiers. *)
Definition severity_rank (severity : string) : nat :=
  if decide (severity = "high") then 3
  else if decide (severity = "medium") then 2
  else if decide (severity = "low") then 1
  else 0.

(** StatisticalDetector at index [i]: the window [power[i-w : i]], its mean
    and population standard deviation, the z-score of [power[i]], and the
    anomaly it yields, if any. *)
Definition spec_statistical_at
    (device_id : string) (power : list F) (timestamps : list datetime)
    (i : nat) : list AnomalyResult :=
  let w := Nat.min 24 (length power / 2) in
  let window := slice power (i - w) i in
  let mean := np_mean window in
  let std := np_std window in
  match power !! i, timestamps !! i with
  | Some x, Some ts =>
      if feqb std (lit 0) then []
      else
        let z := fdiv (fabs (fsub x mean)) std in
        if fltb z (lit 2) then []
        else
          match highest_tier z with
          | Some tier =>
              [mk_result device_id ts x z tier "statistical"
                 (py_min (lit 0.95) (fdiv z (lit 5)))
                 ("Power consumption " +:+ fmt1 z +:+
                  " standard deviations above normal")]
          | None => []
          end
  | _, _ => []
  end.

(** TrendDetector at index [i]: the line fitted to [power[i-6 : i]] over
    the positions [0..5], the value it predicts at position [6], and the
    anomaly the reading yields, if any. *)
Definition spec_trend_at
    (device_id : string) (power : list F) (timestamps : list datetime)
    (i : nat) : list AnomalyResult :=
  let window := slice power (i - 6) i in
  let line := np_polyfit1 (np_arange 6) window in
  let slope := fst line in
  let intercept := snd line in
  let std := np_std window in
  match power !! i, timestamps !! i with
  | Some actual, Some ts =>
      if fgtb (fabs slope) (fmul (lit 0.5) std) then
        let predicted := fadd (fmul slope (of_int 6)) intercept in
        let deviation := fabs (fsub actual predicted) in
        if fgtb deviation (fmul (lit 1.5) std) then
          [mk_result device_id ts actual (fdiv deviation std) "medium" "trend"
             (lit 0.8)
             ("Sudden deviation from trend: " +:+ fmt1 deviation +:+
              "W difference")]
        else []
      else []
  | _, _ => []
  end.

(** The power values of the points whose timestamp falls in hour [h], in
    series order. *)
Definition hour_readings
    (power : list F) (timestamps : list datetime) (h : nat) : list F :=
  map snd (List.filter (fun tp => Nat.eqb (hour (fst tp)) h) (zip timestamps power)).

(** SeasonalDetector at index [i]: the baseline of the point's hour, the
    z-score against it, and the anomaly the point yields, if any. *)
Definition spec_seasonal_at
    (device_id : string) (power : list F) (timestamps : list datetime)
    (i : nat) : list AnomalyResult :=
  match power !! i, timestamps !! i with
  | Some p, Some ts =>
      let samples := hour_readings power timestamps (hour ts) in
      if length samples <? 3 then []
      else
        let mean := np_mean samples in
        let std := np_std samples in
        if feqb std (lit 0) then []
        else
          let z := fdiv (fabs (fsub p mean)) std in
          if fgeb z (lit 3) then
            [mk_result device_id ts p z
               (if fgeb z (lit 4) then "high" else "medium") "seasonal"
               (py_min (lit 0.9) (fdiv z (lit 4)))
               ("Unusual consumption for " +:+ pretty (hour ts) +:+
                ":00 - " +:+ fmt1 z +:+ " std devs from normal")]
          else []
  | _, _ => []
  end.

(** The if-chain of lines 126-134 on the thresholds [__init__] assigns. *)
Definition severity_chain (z : F) : option string :=
  if fgeb z (lit 4) then Some "high"
  else if fgeb z (lit 3) then Some "medium"
  else if fgeb z (lit 2) then Some "low"
  else None.

(** The entries [(i, power[i])] of the indexed timestamps [xs] that fall in
    hour [h]. *)
Definition hour_entries
    (power : list F) (xs : list (nat * datetime)) (h : nat) : list (nat * F) :=
  omap (fun it =>
          if Nat.eqb (hour (snd it)) h then pair (fst it) <$> power !! fst it
          else None)
       xs.

(** The group of an hour after more entries were appended to it. *)
Definition merge_group
    (old : option (list (nat * F))) (new : list (nat * F))
    : option (list (nat * F)) :=
  match old, new with
  | None, [] => None
  | None, _ => Some new
  | Some l, _ => Some (l ++ new)
  end.

(** The check [low < medium < high] on an instance's thresholds. *)
Definition thresholds_ordered (d : AnomalyDetector) : bool :=
  match anomaly_thresholds d !! "low", anomaly_thresholds d !! "medium",
        anomaly_thresholds d !! "high" with
  | Some low, Some medium, Some high => fltb low medium && fltb medium high
  | _, _, _ => false
  end.


(** A data point with both fields present. *)
Definition valid_point (dp : DataPoint) : bool :=
  match dp_power_w dp, dp_timestamp dp with
  | Some _, Some _ => true
  | _, _ => false
  end.

(** A state whose instance has the attributes [__init__] assigns. *)
Definition after_init (s : state) : Prop :=
  exists s0 : state, self s = self (snd (__init__ s0)).

(** A method that leaves the instance as it found it and whose outcome
    depends on the instance alone, not on what was logged before. *)
Definition stable {A} (m : M A) : Prop :=
  (forall s, self (snd (m s)) = self s) /\
  (forall s s', self s = self s' -> fst (m s) = fst (m s')).

End Engine.

Arguments DataPoint F : clear implicits.
Arguments AnomalyResult F : clear implicits.
Arguments AnomalyDetector F : clear implicits.
Arguments state F : clear implicits.
Arguments Baseline F : clear implicits.
Arguments Recommendation : clear implicits.
Arguments M F A : clear implicits.

Notation "x <- m ;; k" := (bind m (fun x => k))
  (at level 100, m at next level, right associativity).

(** ** Sample data *)

(** An object before [__init__] has run: no attributes yet. *)
Definition fresh_state (F : Type) : state F := mk_state (mk_detector 0 ∅) [].

(** The state after [AnomalyDetector()]. *)
Definition constructed (F : Type) `{NumOps F} : state F :=
  snd (__init__ (fresh_state F)).

(** Hour [h] of 1 January 2024. *)
Definition sample_time (h : nat) : datetime := mk_datetime 2024 1 1 h 0 0.

(** [n] hourly timestamps from midnight on. *)
Definition hourly (n : nat) : list datetime :=
  map (fun k => sample_time (k mod 24)) (seq 0 n).

(** The readings [0, 1, ..., n-1], each with both fields. *)
Definition ramp_points (F : Type) `{NumOps F} (n : nat) : list (DataPoint F) :=
  map (fun k => mk_point (Some (of_int k)) (Some (sample_time (k mod 24)))) (seq 0 n).

(** Ten double-precision readings of which the first has no timestamp, so
    nine points have both fields. *)
Definition misaligned_input : list (DataPoint PrimFloat.float) :=
  [ mk_point (Some (lit 0)) None;
    mk_point (Some (lit 0)) (Some (sample_time 1));
    mk_point (Some (lit 0)) (Some (sample_time 2));
    mk_point (Some (lit 0)) (Some (sample_time 3));
    mk_point (Some (lit 5)) (Some (sample_time 4));
    mk_point (Some (lit 100)) (Some (sample_time 5));
    mk_point (Some (lit 21)) (Some (sample_time 6));
    mk_point (Some (lit 25)) (Some (sample_time 7));
    mk_point (Some (lit 30)) (Some (sample_time 8));
    mk_point (Some (lit 36)) (Some (sample_time 9)) ].

(** Twelve double-precision readings rising by 10 W an hour, then a jump
    to 500 W. *)
Definition trend_break_points : list (DataPoint PrimFloat.float) :=
  map (fun k => mk_point (Some (of_int (10 * k))) (Some (sample_time k))) (seq 0 12)
  ++ [mk_point (Some (lit 500)) (Some (sample_time 12))].

(** Eleven days of hourly double-precision readings: 2000 W at 14:00 and
    500 W otherwise, except for 500 W at 14:00 on the sixth day (index 134). *)
Definition seasonal_series : list PrimFloat.float :=
  map (fun k =>
         if Nat.eqb (k mod 24) 14
         then (if Nat.eqb k 134 then lit 500 else lit 2000)
         else lit 500)
      (seq 0 264).

(** [2.0 ** 1023], a finite double; the sum of two of them is [+inf]. *)
Module Overflow.

Import PrimFloat.

Definition huge : PrimFloat.float := 0x1p+1023%float.

End Overflow.

(** Ten double-precision readings of [2.0 ** 1023]. *)
Definition overflow_series : list PrimFloat.float := replicate 10 Overflow.huge.

(** Ten double-precision readings of which the first has no timestamp and
    the last jumps to 3600 W: nine timestamps for ten power values. *)
Definition late_jump_input : list (DataPoint PrimFloat.float) :=
  [ mk_point (Some (lit 0)) None;
    mk_point (Some (lit 0)) (Some (sample_time 1));
    mk_point (Some (lit 0)) (Some (sample_time 2));
    mk_point (Some (lit 0)) (Some (sample_time 3));
    mk_point (Some (lit 5)) (Some (sample_time 4));
    mk_point (Some (lit 100)) (Some (sample_time 5));
    mk_point (Some (lit 21)) (Some (sample_time 6));
    mk_point (Some (lit 25)) (Some (sample_time 7));
    mk_point (Some (lit 30)) (Some (sample_time 8));
    mk_point (Some (lit 3600)) (Some (sample_time 9)) ].

(** Forty-eight points with both fields, then one with a timestamp and no
    power value. *)
Definition surplus_timestamp_points (F : Type) `{NumOps F} : list (DataPoint F) :=
  ramp_points F 48 ++ [mk_point None (Some (sample_time 0))].

(** The state after [AnomalyDetector()] and
    [del detector.anomaly_thresholds['high']]. *)
Definition without_high (F : Type) `{NumOps F} : state F :=
  mk_state
    (mk_detector (executor (self (constructed F)))
       (delete "high" (anomaly_thresholds (self (constructed F)))))
    (logged (constructed F)).

(** ** Further notions about runs of the engine *)

Section EngineObservations.

Context {F : Type} `{NumOps F}.

(** A method that leaves the whole state, log included, as it found it. *)
Definition silent {A} (m : M F A) : Prop := forall s, snd (m s) = s.

(** The line the handler of [detect_anomalies_in_data] logs for [e]
    (line 95). *)
Definition failure_line (device_id : string) (e : exn) : string :=
  "Anomaly detection failed for " +:+ device_id +:+ ": " +:+ exn_str e.

(** Index [i] passes the guards of lines 119-134 on a constructed detector:
    the window's standard deviation is not 0 and the z-score reaches one of
    the cutoffs. *)
Definition statistical_flags (power : list F) (i : nat) : bool :=
  let w := Nat.min 24 (length power / 2) in
  let window := slice power (i - w) i in
  match power !! i with
  | Some x =>
      negb (feqb (np_std window) (lit 0)) &&
      bool_decide (is_Some (severity_chain
                              (fdiv (fabs (fsub x (np_mean window)))
                                    (np_std window))))
  | None => false
  end.

(** What lines 94-96 make of an exception [e]: one line for the log, and the
    empty list. *)
Definition failed (device_id : string) (s : state F) (e : exn)
    : outcome (list (AnomalyResult F)) * state F :=
  (Ok [], mk_state (self s) (logged s ++ [failure_line device_id e])).

(** The exception [a[i]] raises on an [ndarray] of [size] elements when [i]
    is out of bounds (see [ndarray_getitem]). *)
Definition out_of_bounds (i size : nat) : exn :=
  IndexError ("index " +:+ pretty i +:+
              " is out of bounds for axis 0 with size " +:+ pretty size).

(** The pairs of type and severity the three detectors assign. *)
Definition assigned_label (r : AnomalyResult F) : Prop :=
  (type r = "statistical" /\
   (severity r = "low" \/ severity r = "medium" \/ severity r = "high")) \/
  (type r = "trend" /\ severity r = "medium") \/
  (type r = "seasonal" /\ (severity r = "medium" \/ severity r = "high")).

(** What the constructor calls of lines 137-146, 184-193 and 241-250 fix of
    a result: the device, the label, and the confidence as a function of
    the score. *)
Definition result_shape (device : string) (r : AnomalyResult F) : Prop :=
  device_id r = device /\
  ((type r = "statistical" /\
    (severity r = "low" \/ severity r = "medium" \/ severity r = "high") /\
    confidence r = py_min (lit 0.95) (fdiv (anomaly_score r) (lit 5))) \/
   (type r = "trend" /\ severity r = "medium" /\ confidence r = lit 0.8) \/
   (type r = "seasonal" /\ (severity r = "medium" \/ severity r = "high") /\
    confidence r = py_min (lit 0.9) (fdiv (anomaly_score r) (lit 4)))).

(** The priority [get_anomaly_recommendations] attaches to a label, if it
    recommends anything (lines 318-343). *)
Definition recommended_priority (r : AnomalyResult F) : list string :=
  if decide (type r = "statistical") then
    (if decide (severity r = "high") then ["high"] else [])
  else if decide (type r = "trend") then ["medium"]
  else if decide (type r = "seasonal") then ["low"]
  else [].

End EngineObservations.

(** * Properties *)

Section EngineProperties.

Context {F : Type} {ops : NumOps F}.

(** ** Running methods *)

Lemma bind_ok {A B} (m : M F A) (k : A -> M F B) s a s' :
  m s = (Ok a, s') -> bind m k s = k a s'.
Proof. intros Hm. unfold bind. now rewrite Hm. Qed.

Lemma bind_raise {A B} (m : M F A) (k : A -> M F B) s e s' :
  m s = (Raise e, s') -> bind m k s = (Raise e, s').
Proof. intros Hm. unfold bind. now rewrite Hm. Qed.

(** A loop whose body appends [g x] to the accumulator at every [x]. *)
Lemma for_each_emit {A B} (g : A -> list B) (body : A -> list B -> M F (list B)) s :
  forall xs : list A,
    (forall x acc, x ∈ xs -> body x acc s = (Ok (acc ++ g x), s)) ->
    forall acc, for_each xs body acc s = (Ok (acc ++ flat_map g xs), s).
Proof.
  induction xs as [|x xs IH]; intros Hbody acc; simpl.
  - now rewrite app_nil_r.
  - rewrite (bind_ok _ _ _ _ _ (Hbody x acc (list_elem_of_here x xs))).
    rewrite IH.
    + now rewrite app_assoc.
    + intros y acc' Hy. apply Hbody. now apply list_elem_of_further.
Qed.

Lemma elem_of_range (a b i : nat) : i ∈ range a b <-> a <= i < b.
Proof. unfold range. rewrite elem_of_seq. lia. Qed.

Lemma ndarray_getitem_ok (a : list F) i x (s : state F) :
  a !! i = Some x -> ndarray_getitem a i s = (Ok x, s).
Proof. intros Hx. unfold ndarray_getitem. now rewrite Hx. Qed.

Lemma list_getitem_ok {A} (l : list A) i x (s : state F) :
  l !! i = Some x -> list_getitem l i s = (Ok x, s).
Proof. intros Hx. unfold list_getitem. now rewrite Hx. Qed.

(** ** The thresholds after construction *)

Lemma threshold_after_init (s : state F) :
  after_init s ->
  threshold "low" s = (Ok (lit 2), s) /\
  threshold "medium" s = (Ok (lit 3), s) /\
  threshold "high" s = (Ok (lit 4), s).
Proof.
  intros [s0 Hs]. unfold threshold. rewrite Hs. simpl.
  repeat split; reflexivity.
Qed.

Lemma determine_severity_after_init (s : state F) (z : F) :
  after_init s -> determine_severity z s = (Ok (severity_chain z), s).
Proof.
  intros Hs. destruct (threshold_after_init s Hs) as (Hlow & Hmed & Hhigh).
  unfold determine_severity, severity_chain.
  rewrite (bind_ok _ _ _ _ _ Hhigh).
  destruct (fgeb z (lit 4)); [reflexivity|].
  rewrite (bind_ok _ _ _ _ _ Hmed).
  destruct (fgeb z (lit 3)); [reflexivity|].
  rewrite (bind_ok _ _ _ _ _ Hlow).
  now destruct (fgeb z (lit 2)).
Qed.

Lemma highest_tier_chain (z : F) : highest_tier z = severity_chain z.
Proof.
  unfold highest_tier, severity_chain, spec_thresholds. simpl.
  destruct (fgeb z (lit 2)), (fgeb z (lit 3)), (fgeb z (lit 4)); reflexivity.
Qed.

(** ** Methods that only read the instance *)

Lemma stable_ret {A} (a : A) : stable (F:=F) (ret a).
Proof. split; intros; reflexivity. Qed.

Lemma stable_raise {A} (e : exn) : stable (F:=F) (A:=A) (raise e).
Proof. split; intros; reflexivity. Qed.

Lemma stable_bind {A B} (m : M F A) (k : A -> M F B) :
  stable m -> (forall a, stable (k a)) -> stable (bind m k).
Proof.
  intros [Hself Hout] Hk. split.
  - intros s. unfold bind. specialize (Hself s).
    destruct (m s) as [[a|e] s1]; simpl in *; [|assumption].
    destruct (Hk a) as [Hka _]. now rewrite Hka.
  - intros s s' Hss. unfold bind.
    pose proof (Hout s s' Hss) as Ho.
    pose proof (Hself s) as H1. pose proof (Hself s') as H2.
    destruct (m s) as [[a|e] s1], (m s') as [[a'|e'] s1'];
      simpl in *; try discriminate.
    + injection Ho as ->. destruct (Hk a') as [_ Hka]. apply Hka. congruence.
    + now injection Ho as ->.
Qed.

Lemma stable_try_except {A} (m : M F A) (handler : exn -> M F A) :
  stable m -> (forall e, stable (handler e)) -> stable (try_except m handler).
Proof.
  intros [Hself Hout] Hh. split.
  - intros s. unfold try_except. specialize (Hself s).
    destruct (m s) as [[a|e] s1]; simpl in *; [assumption|].
    destruct (Hh e) as [Hhe _]. now rewrite Hhe.
  - intros s s' Hss. unfold try_except.
    pose proof (Hout s s' Hss) as Ho.
    pose proof (Hself s) as H1. pose proof (Hself s') as H2.
    destruct (m s) as [[a|e] s1], (m s') as [[a'|e'] s1'];
      simpl in *; try discriminate; [assumption|].
    injection Ho as ->. destruct (Hh e') as [_ Hhe]. apply Hhe. congruence.
Qed.

Lemma stable_logger_error (msg : string) : stable (F:=F) (logger_error msg).
Proof. split; intros; reflexivity. Qed.

Lemma stable_threshold (key : string) : stable (F:=F) (threshold key).
Proof.
  split; intros s; unfold threshold.
  - now destruct (anomaly_thresholds (self s) !! key).
  - intros s' ->. now destruct (anomaly_thresholds (self s') !! key).
Qed.

Lemma stable_list_getitem {A} (l : list A) (i : nat) : stable (F:=F) (list_getitem l i).
Proof. unfold list_getitem. destruct (l !! i); [apply stable_ret | apply stable_raise]. Qed.

Lemma stable_ndarray_getitem (a : list F) (i : nat) : stable (ndarray_getitem a i).
Proof. unfold ndarray_getitem. destruct (a !! i); [apply stable_ret | apply stable_raise]. Qed.

Lemma stable_for_each {A B} (body : A -> B -> M F B) :
  (forall x acc, stable (body x acc)) ->
  forall xs acc, stable (for_each xs body acc).
Proof.
  intros Hbody. induction xs as [|x xs IH]; intros acc; simpl.
  - apply stable_ret.
  - apply stable_bind; [apply Hbody | exact IH].
Qed.

(** Decomposes a method built from the combinators above. *)
Ltac stable_step :=
  match goal with
  | |- @stable _ _ (ret _) => apply stable_ret
  | |- @stable _ _ (raise _) => apply stable_raise
  | |- @stable _ _ (threshold _) => apply stable_threshold
  | |- @stable _ _ (logger_error _) => apply stable_logger_error
  | |- @stable _ _ (list_getitem _ _) => apply stable_list_getitem
  | |- @stable _ _ (ndarray_getitem _ _) => apply stable_ndarray_getitem
  | |- @stable _ _ (bind _ _) => apply stable_bind; [|intros ?]
  | |- @stable _ _ (try_except _ _) => apply stable_try_except; [|intros ?]
  | |- @stable _ _ (for_each _ _ _) => apply stable_for_each; intros ? ?; cbv beta
  | |- @stable _ _ ((match ?o with _ => _ end) _) => destruct o
  | |- @stable _ _ (if ?b then _ else _) => destruct b
  | |- @stable _ _ (match ?o with _ => _ end) => destruct o
  | |- @stable _ _ (let _ := _ in _) => cbv zeta
  end.

Lemma stable_determine_severity (z : F) : stable (determine_severity z).
Proof. unfold determine_severity. repeat stable_step. Qed.

Lemma stable_statistical device_id power_values timestamps :
  stable (_detect_statistical_anomalies device_id power_values timestamps).
Proof.
  unfold _detect_statistical_anomalies. cbv zeta.
  repeat (stable_step || apply stable_determine_severity).
Qed.

Lemma stable_trend device_id power_values timestamps :
  stable (_detect_trend_anomalies device_id power_values timestamps).
Proof. unfold _detect_trend_anomalies. repeat stable_step. Qed.

Lemma stable_group_by_hour (power_values : list F) timestamps :
  stable (group_by_hour power_values timestamps).
Proof. unfold group_by_hour. repeat stable_step. Qed.

Lemma stable_seasonal device_id power_values timestamps :
  stable (_detect_seasonal_anomalies device_id power_values timestamps).
Proof.
  unfold _detect_seasonal_anomalies.
  repeat (stable_step || apply stable_group_by_hour).
Qed.

Lemma stable_detect device_id data_points :
  stable (detect_anomalies_in_data device_id data_points).
Proof.
  unfold detect_anomalies_in_data.
  repeat (stable_step || apply stable_statistical || apply stable_trend
          || apply stable_seasonal).
Qed.





(** ** Properties that rest on the laws of exact arithmetic *)

Section WithLaws.

Context {laws : NumLaws F}.

Lemma fleb_refl (x : F) : fleb x x = true.
Proof. now destruct (fleb_total x x). Qed.

Lemma fltb_true_iff (x y : F) : fltb x y = true <-> fleb y x = false.
Proof. rewrite fltb_fleb. now destruct (fleb y x). Qed.

Lemma fltb_false_iff (x y : F) : fltb x y = false <-> fleb y x = true.
Proof. rewrite fltb_fleb. now destruct (fleb y x). Qed.

Lemma fltb_irrefl (x : F) : fltb x x = false.
Proof. apply fltb_false_iff, fleb_refl. Qed.


Lemma fleb_false_trans (x y z : F) :
  fleb x y = true -> fleb x z = false -> fleb y z = false.
Proof.
  intros Hxy Hxz. destruct (fleb y z) eqn:Hyz; [|reflexivity].
  now rewrite (fleb_trans x y z Hxy Hyz) in Hxz.
Qed.

Lemma lit_2_3 : fleb (F:=F) (lit 2) (lit 3) = true.
Proof. now rewrite lit_fleb. Qed.

Lemma lit_3_4 : fleb (F:=F) (lit 3) (lit 4) = true.
Proof. now rewrite lit_fleb. Qed.

(** Below the low cutoff no tier is reached. *)
Lemma severity_chain_below (z : F) :
  fltb z (lit 2) = true -> severity_chain z = None.
Proof.
  intros Hz. apply fltb_true_iff in Hz. unfold severity_chain, fgeb.
  pose proof (fleb_false_trans _ _ _ lit_2_3 Hz) as H3.
  pose proof (fleb_false_trans _ _ _ lit_3_4 H3) as H4.
  now rewrite H4, H3, Hz.
Qed.

(** From the low cutoff on some tier is reached. *)
Lemma severity_chain_reached (z : F) :
  fltb z (lit 2) = false -> is_Some (severity_chain z).
Proof.
  intros Hz. apply fltb_false_iff in Hz. unfold severity_chain, fgeb.
  rewrite Hz. destruct (fleb (lit 4) z), (fleb (lit 3) z); eauto.
Qed.

(** One turn of the statistical detector's loop. *)
Lemma statistical_body device_id (power : list F) timestamps s i x ts acc :
  after_init s -> power !! i = Some x -> timestamps !! i = Some ts ->
  let window_size := Nat.min 24 (length power / 2) in
  let window_data := slice power (i - window_size) i in
  let std := np_std window_data in
  (if feqb std (lit 0) then ret acc
   else
     x <- ndarray_getitem power i ;;
     let z_score := fdiv (fabs (fsub x (np_mean window_data))) std in
     sev <- determine_severity z_score ;;
     match sev with
     | None => ret acc
     | Some severity =>
         ts <- list_getitem timestamps i ;;
         p <- ndarray_getitem power i ;;
         ret (acc ++
              [mk_result device_id ts p z_score severity "statistical"
                 (py_min (lit 0.95) (fdiv z_score (lit 5)))
                 ("Power consumption " +:+ fmt1 z_score +:+
                  " standard deviations above normal")])
     end) s
  = (Ok (acc ++ spec_statistical_at device_id power timestamps i), s).
Proof.
  intros Hs Hx Hts. cbv zeta. unfold spec_statistical_at. rewrite Hx, Hts.
  destruct (feqb _ (lit 0)) eqn:Estd.
  { now rewrite app_nil_r. }
  rewrite (bind_ok _ _ _ _ _ (ndarray_getitem_ok _ _ _ _ Hx)).
  rewrite (bind_ok _ _ _ _ _ (determine_severity_after_init _ _ Hs)).
  rewrite highest_tier_chain.
  destruct (fltb _ (lit 2)) eqn:Ez.
  { rewrite (severity_chain_below _ Ez). now rewrite app_nil_r. }
  destruct (severity_chain _) as [tier|].
  - rewrite (bind_ok _ _ _ _ _ (list_getitem_ok _ _ _ _ Hts)).
    now rewrite (bind_ok _ _ _ _ _ (ndarray_getitem_ok _ _ _ _ Hx)).
  - now rewrite app_nil_r.
Qed.

Lemma statistical_run device_id (power : list F) timestamps s :
  after_init s -> length power <= length timestamps ->
  _detect_statistical_anomalies device_id power timestamps s
  = (Ok (flat_map (spec_statistical_at device_id power timestamps)
           (range (Nat.min 24 (length power / 2)) (length power))), s).
Proof.
  intros Hs Hlen. unfold _detect_statistical_anomalies. cbv zeta.
  rewrite (for_each_emit (spec_statistical_at device_id power timestamps));
    [reflexivity|].
  intros i acc Hi%elem_of_range.
  destruct (lookup_lt_is_Some_2 power i) as [x Hx]; [lia|].
  destruct (lookup_lt_is_Some_2 timestamps i) as [ts Hts]; [lia|].
  exact (statistical_body device_id power timestamps s i x ts acc Hs Hx Hts).
Qed.

(** In exact arithmetic, on a constructed detector and a series whose
    readings all carry a timestamp, the statistical detector visits the indices [w .. n-1] with
    [w = min(24, n/2)] in ascending order and yields at each what
    [spec_statistical_at] describes: nothing when the standard deviation of
    [power[i-w : i]] is 0 or the z-score is below 2.0, and otherwise one
    result of type ['statistical'] whose severity is the highest tier the
    z-score reaches, whose score is the z-score and whose confidence is
    [min(0.95, z / 5.0)]; from 2.0 on some tier is always reached. *)
Theorem statistical_detector_spec device_id (power : list F) timestamps s :
  10 <= length power ->
  length timestamps = length power ->
  after_init s ->
  _detect_statistical_anomalies device_id power timestamps s
  = (Ok (flat_map (spec_statistical_at device_id power timestamps)
           (range (Nat.min 24 (length power / 2)) (length power))), s)
  /\ (forall z : F, fltb z (lit 2) = false -> is_Some (highest_tier z))
  /\ (forall z : F, fltb z (lit 2) = true -> highest_tier z = None).
Proof.
  intros _ Hlen Hs. split; [|split].
  - apply statistical_run; [assumption | lia].
  - intros z Hz. rewrite highest_tier_chain. now apply severity_chain_reached.
  - intros z Hz. rewrite highest_tier_chain. now apply severity_chain_below.
Qed.

Lemma length_slice {A} (l : list A) (a b : nat) :
  a <= b -> b <= length l -> length (slice l a b) = b - a.
Proof. intros Hab Hb. unfold slice. rewrite length_take, length_drop. lia. Qed.

Lemma trend_run device_id (power : list F) timestamps s :
  length power <= length timestamps ->
  _detect_trend_anomalies device_id power timestamps s
  = (Ok (if length power <? 12 then []
         else flat_map (spec_trend_at device_id power timestamps)
                (range 6 (length power))), s).
Proof.
  intros Hlen. unfold _detect_trend_anomalies.
  destruct (length power <? 12); [reflexivity|]. cbv zeta.
  rewrite (for_each_emit (spec_trend_at device_id power timestamps));
    [reflexivity|].
  intros i acc Hi%elem_of_range.
  destruct (lookup_lt_is_Some_2 power i) as [x Hx]; [lia|].
  destruct (lookup_lt_is_Some_2 timestamps i) as [ts Hts]; [lia|].
  unfold spec_trend_at. rewrite Hx, Hts.
  rewrite length_slice by lia.
  replace (i - (i - 6)) with 6 by lia.
  rewrite !(fmul_comm (np_std _)).
  destruct (fgtb (fabs _) _); [|now rewrite app_nil_r].
  rewrite (bind_ok _ _ _ _ _ (ndarray_getitem_ok _ _ _ _ Hx)).
  destruct (fgtb (fabs _) _); [|now rewrite app_nil_r].
  now rewrite (bind_ok _ _ _ _ _ (list_getitem_ok _ _ _ _ Hts)).
Qed.

(** C3. The trend detector yields nothing on fewer than 12 points.  From
    12 points on it visits the indices [6 .. n-1] in ascending order and
    yields at each what [spec_trend_at] describes: the least-squares line
    through [power[i-6 : i]] over the positions [0..5]; nothing unless
    [|slope| > 0.5 * std(window)]; the value predicted at position 6;
    nothing unless the deviation of [power[i]] from it exceeds
    [1.5 * std(window)]; otherwise one result of severity ['medium'],
    confidence 0.8 and score [deviation / std(window)]. *)
Theorem trend_detector_spec device_id (power : list F) timestamps s :
  length timestamps = length power ->
  _detect_trend_anomalies device_id power timestamps s
  = (Ok (if length power <? 12 then []
         else flat_map (spec_trend_at device_id power timestamps)
                (range 6 (length power))), s)
  /\ Forall (fun r => severity r = "medium" /\ confidence r = lit 0.8 /\
                      type r = "trend")
       (flat_map (spec_trend_at device_id power timestamps)
          (range 6 (length power))).
Proof.
  intros Hlen. split.
  - apply trend_run. lia.
  - apply Forall_forall. intros r Hr.
    apply list_elem_of_In, in_flat_map in Hr. destruct Hr as (i & _ & Hr).
    unfold spec_trend_at in Hr.
    destruct (power !! i); [|now apply in_nil in Hr].
    destruct (timestamps !! i); [|now apply in_nil in Hr].
    destruct (fgtb _ _); [|now apply in_nil in Hr].
    destruct (fgtb _ _); [|now apply in_nil in Hr].
    destruct Hr as [<-|[]]. now repeat split.
Qed.

(** *** The seasonal detector *)

Lemma merge_group_nil (o : option (list (nat * F))) : merge_group o [] = o.
Proof. destruct o as [l|]; simpl; [now rewrite app_nil_r | reflexivity]. Qed.

Lemma group_loop (power : list F) s :
  forall xs : list (nat * datetime),
    (forall it, it ∈ xs -> is_Some (power !! fst it)) ->
    forall G0 : gmap nat (list (nat * F)),
    exists G,
      for_each xs
        (fun '(i, timestamp) hourly_groups =>
           let hour := hour timestamp in
           let hourly_groups :=
             match hourly_groups !! hour with
             | None => <[hour := []]> hourly_groups
             | Some _ => hourly_groups
             end in
           p <- ndarray_getitem power i ;;
           ret (alter (fun values => values ++ [(i, p)]) hour hourly_groups))
        G0 s = (Ok G, s) /\
      forall h, G !! h = merge_group (G0 !! h) (hour_entries power xs h).
Proof.
  induction xs as [|[i t] xs IH]; intros Hidx G0.
  - exists G0. split; [reflexivity|]. intros h. simpl. now rewrite merge_group_nil.
  - destruct (Hidx (i, t) (list_elem_of_here _ _)) as [p Hp]. simpl in Hp.
    set (G1 := match G0 !! hour t with
               | None => <[hour t := []]> G0
               | Some _ => G0
               end).
    set (G2 := alter (fun values => values ++ [(i, p)]) (hour t) G1).
    destruct (IH (fun it Hit => Hidx it (list_elem_of_further _ _ _ Hit)) G2)
      as (G & Hrun & HG).
    exists G. split.
    + cbn [for_each]. erewrite bind_ok; [exact Hrun|].
      now rewrite (bind_ok _ _ _ _ _ (ndarray_getitem_ok _ _ _ _ Hp)).
    + intros h. rewrite HG. unfold hour_entries. simpl. rewrite Hp. simpl.
      fold (hour_entries power xs h). subst G2 G1.
      destruct (Nat.eqb_spec (hour t) h) as [->|Hne].
      * rewrite lookup_alter_eq.
        destruct (G0 !! h) as [l|] eqn:E0.
        -- rewrite E0. simpl. now rewrite <- app_assoc.
        -- now rewrite lookup_insert_eq.
      * rewrite lookup_alter_ne by assumption.
        destruct (G0 !! hour t); [reflexivity|].
        now rewrite lookup_insert_ne.
Qed.

Lemma hour_entries_readings (power : list F) h :
  forall (timestamps : list datetime) (k : nat),
    k + length timestamps <= length power ->
    map snd (hour_entries power (imap (fun i t => (k + i, t)) timestamps) h)
    = map snd (List.filter (fun tp => Nat.eqb (hour (fst tp)) h)
                 (zip timestamps (drop k power))).
Proof.
  induction timestamps as [|t ts IH]; intros k Hk; [reflexivity|].
  simpl in Hk.
  destruct (lookup_lt_is_Some_2 power k) as [p Hp]; [lia|].
  rewrite (drop_S _ _ _ Hp). simpl.
  unfold hour_entries. simpl. rewrite Nat.add_0_r, Hp.
  fold (hour_entries power (imap ((fun i t => (k + i, t)) ∘ S) ts) h).
  rewrite (imap_ext _ (fun i t => (S k + i, t)))
    by (intros; simpl; f_equal; lia).
  specialize (IH (S k) ltac:(lia)).
  destruct (Nat.eqb (hour t) h); cbn [fmap option_fmap option_map];
    rewrite ?map_cons, IH; reflexivity.
Qed.

Lemma fst_imap_pair {A} (l : list A) :
  forall k, map fst (imap (fun i x => (k + i, x)) l) = seq k (length l).
Proof.
  induction l as [|x l IH]; intros k; [reflexivity|]. simpl.
  rewrite Nat.add_0_r. f_equal.
  rewrite (imap_ext _ (fun i x => (S k + i, x)))
    by (intros; simpl; f_equal; lia).
  apply IH.
Qed.

Lemma flat_map_fst {A B C} (g : A -> list C) (xs : list (A * B)) :
  flat_map (fun x => g (fst x)) xs = flat_map g (map fst xs).
Proof. induction xs as [|x xs IH]; simpl; [reflexivity | now rewrite IH]. Qed.

(** A standard deviation is positive exactly when it is not zero. *)
Lemma std_positive (l : list F) :
  fgtb (np_std l) (lit 0) = negb (feqb (np_std l) (lit 0)).
Proof.
  unfold fgtb. rewrite fltb_fleb.
  destruct (feqb (np_std l) (lit 0)) eqn:E.
  - apply feqb_eq in E. rewrite E. now rewrite fleb_refl.
  - destruct (fleb (np_std l) (lit 0)) eqn:Hle; [|reflexivity].
    pose proof (fleb_antisym _ _ Hle (np_std_nonneg l)) as E0.
    apply feqb_eq in E0. congruence.
Qed.

Lemma hour_entries_enumerate (power : list F) timestamps h :
  length timestamps <= length power ->
  map snd (hour_entries power (imap pair timestamps) h)
  = hour_readings power timestamps h.
Proof. intros Hlen. exact (hour_entries_readings power h timestamps 0 Hlen). Qed.

Lemma fst_enumerate {A} (l : list A) : map fst (imap pair l) = seq 0 (length l).
Proof. exact (fst_imap_pair l 0). Qed.

Lemma elem_of_enumerate_zip {A B} (l : list A) (k : list B) i a b :
  (i, (a, b)) ∈ imap pair (zip l k) -> l !! i = Some a /\ k !! i = Some b.
Proof.
  intros (j & [a' b'] & Heq & Hz)%elem_of_lookup_imap.
  injection Heq as -> -> ->.
  apply lookup_zip_with_Some in Hz as (a & b & Heq & Ha & Hb).
  injection Heq as -> ->. now split.
Qed.

Lemma seasonal_run device_id (power : list F) timestamps s :
  after_init s -> length timestamps = length power ->
  _detect_seasonal_anomalies device_id power timestamps s
  = (Ok (if length power <? 48 then []
         else flat_map (spec_seasonal_at device_id power timestamps)
                (range 0 (length power))), s).
Proof.
  intros Hs Hlen. unfold _detect_seasonal_anomalies.
  destruct (length power <? 48); [reflexivity|].
  destruct (threshold_after_init s Hs) as (_ & Hmed & Hhigh).
  destruct (group_loop power s (imap pair timestamps)) with (G0 := (∅ : gmap nat (list (nat * F))))
    as (G & Hrun & HG).
  { intros it (j & t & -> & Ht)%elem_of_lookup_imap. simpl.
    apply lookup_lt_is_Some_2. apply lookup_lt_Some in Ht. lia. }
  unfold group_by_hour. rewrite (bind_ok _ _ _ _ _ Hrun). cbv zeta.
  rewrite (for_each_emit
             (fun x => spec_seasonal_at device_id power timestamps (fst x))).
  { rewrite flat_map_fst, fst_enumerate, length_zip_with.
    unfold range. now rewrite Nat.sub_0_r, Hlen, Nat.min_id. }
  intros [i [t p]] acc [Ht Hp]%elem_of_enumerate_zip.
  unfold spec_seasonal_at. cbn [fst]. rewrite Hp, Ht.
  unfold baselines_of. rewrite lookup_omap, HG, lookup_empty.
  rewrite <- (hour_entries_enumerate power timestamps (hour t)) by lia.
  destruct (hour_entries power (imap pair timestamps) (hour t)) as [|e es].
  { simpl. now rewrite app_nil_r. }
  cbn [merge_group]. cbn [mbind option_bind]. rewrite length_map.
  destruct (Nat.leb_spec 3 (length (e :: es))) as [Hge|Hlt].
  2:{ destruct (Nat.ltb_spec (length (e :: es)) 3); [|lia]. now rewrite app_nil_r. }
  destruct (Nat.ltb_spec (length (e :: es)) 3); [lia|].
  cbn [baseline_std baseline_mean]. rewrite std_positive.
  destruct (feqb _ (lit 0)); cbn [negb]; [now rewrite app_nil_r|].
  rewrite (bind_ok _ _ _ _ _ Hmed).
  destruct (fgeb _ (lit 3)); [|now rewrite app_nil_r].
  now rewrite (bind_ok _ _ _ _ _ Hhigh).
Qed.

(** C4. The seasonal detector yields nothing on fewer than 48 points.  From
    48 points on it visits every index in ascending order and yields at
    each what [spec_seasonal_at] describes: the readings of the point's
    hour of the day across the series; nothing when there are fewer than
    three of them or their standard deviation is 0; the z-score against
    their mean; nothing when it is below 3.0; otherwise one result of
    severity ['high'] from 4.0 on and ['medium'] below, with confidence
    [min(0.9, z / 4.0)].  No result has severity ['low']. *)
Theorem seasonal_detector_spec device_id (power : list F) timestamps s :
  after_init s ->
  length timestamps = length power ->
  _detect_seasonal_anomalies device_id power timestamps s
  = (Ok (if length power <? 48 then []
         else flat_map (spec_seasonal_at device_id power timestamps)
                (range 0 (length power))), s)
  /\ Forall (fun r => type r = "seasonal" /\
                      (severity r = "high" \/ severity r = "medium") /\
                      fgeb (anomaly_score r) (lit 3) = true /\
                      confidence r = py_min (lit 0.9) (fdiv (anomaly_score r) (lit 4)))
       (flat_map (spec_seasonal_at device_id power timestamps)
          (range 0 (length power))).
Proof.
  intros Hs Hlen. split.
  - now apply seasonal_run.
  - apply Forall_forall. intros r Hr.
    apply list_elem_of_In, in_flat_map in Hr. destruct Hr as (i & _ & Hr).
    unfold spec_seasonal_at in Hr.
    destruct (power !! i); [|now apply in_nil in Hr].
    destruct (timestamps !! i); [|now apply in_nil in Hr].
    destruct (_ <? 3); [now apply in_nil in Hr|].
    destruct (feqb _ _); [now apply in_nil in Hr|].
    destruct (fgeb _ (lit 3)) eqn:Ez; [|now apply in_nil in Hr].
    destruct Hr as [<-|[]]. cbn. repeat split; [|exact Ez].
    destruct (fgeb _ (lit 4)); [now left | now right].
Qed.

(** *** The aggregation *)

Lemma extract_valid (data_points : list (DataPoint F)) :
  Forall (fun dp => valid_point dp = true) data_points ->
  length (extract_power_values data_points) = length data_points /\
  length (extract_timestamps data_points) = length data_points.
Proof.
  unfold extract_power_values, extract_timestamps.
  induction 1 as [|[[p|] [t|]] dps Hdp _ [IHp IHt]]; try discriminate;
    simpl; [split; reflexivity|].
  split; f_equal; assumption.
Qed.

Lemma statistical_type device_id (power : list F) timestamps i r :
  In r (spec_statistical_at device_id power timestamps i) ->
  type r = "statistical" /\ highest_tier (anomaly_score r) = Some (severity r).
Proof.
  unfold spec_statistical_at.
  destruct (power !! i); [|intros []].
  destruct (timestamps !! i); [|intros []].
  destruct (feqb _ _); [intros []|].
  destruct (fltb _ _); [intros []|].
  destruct (highest_tier _) eqn:E; [|intros []].
  intros [<-|[]]. now split.
Qed.

(** C5. On a constructed detector and at least ten data points that all
    carry both fields, [detect_anomalies_in_data] returns the results of the
    statistical detector, then those of the trend detector, then those of
    the seasonal detector, each list as its detector returned it (in
    ascending index order), with nothing merged, reordered or dropped. *)
Theorem detect_concatenates device_id (data_points : list (DataPoint F)) s :
  after_init s ->
  Forall (fun dp => valid_point dp = true) data_points ->
  10 <= length data_points ->
  let power := extract_power_values data_points in
  let timestamps := extract_timestamps data_points in
  let n := length power in
  exists statistical trend seasonal,
    _detect_statistical_anomalies device_id power timestamps s = (Ok statistical, s) /\
    _detect_trend_anomalies device_id power timestamps s = (Ok trend, s) /\
    _detect_seasonal_anomalies device_id power timestamps s = (Ok seasonal, s) /\
    detect_anomalies_in_data device_id data_points s
    = (Ok (statistical ++ trend ++ seasonal), s) /\
    statistical = flat_map (spec_statistical_at device_id power timestamps)
                    (range (Nat.min 24 (n / 2)) n) /\
    trend = (if n <? 12 then []
             else flat_map (spec_trend_at device_id power timestamps) (range 6 n)) /\
    seasonal = (if n <? 48 then []
                else flat_map (spec_seasonal_at device_id power timestamps)
                       (range 0 n)).
Proof.
  intros Hs Hvalid Hlen power timestamps n.
  destruct (extract_valid data_points Hvalid) as [Hp Ht].
  fold power in Hp. fold timestamps in Ht.
  assert (Hpt : length timestamps = length power) by congruence.
  pose proof (statistical_run device_id power timestamps s Hs ltac:(lia)) as Hstat.
  pose proof (trend_run device_id power timestamps s ltac:(lia)) as Htrend.
  pose proof (seasonal_run device_id power timestamps s Hs Hpt) as Hseas.
  eexists _, _, _. split; [exact Hstat|]. split; [exact Htrend|].
  split; [exact Hseas|]. split; [|repeat split].
  unfold detect_anomalies_in_data.
  destruct (Nat.ltb_spec (length data_points) 10); [lia|].
  unfold try_except. cbv zeta. fold power timestamps.
  destruct (Nat.ltb_spec (length power) 10); [lia|].
  rewrite (bind_ok _ _ _ _ _ Hstat), (bind_ok _ _ _ _ _ Htrend),
    (bind_ok _ _ _ _ _ Hseas).
  unfold ret. cbn [app]. now rewrite <- app_assoc.
Qed.

(** *** Constant series *)





(** *** Severity and z-score *)

Lemma fltb_fleb_weak (x y : F) : fltb x y = true -> fleb x y = true.
Proof.
  intros Hlt%fltb_true_iff. destruct (fleb_total x y) as [Hxy|Hyx];
    [assumption | congruence].
Qed.

Lemma severity_chain_mono (z1 z2 : F) (t1 t2 : string) :
  fleb z1 z2 = true ->
  severity_chain z1 = Some t1 -> severity_chain z2 = Some t2 ->
  severity_rank t1 <= severity_rank t2.
Proof.
  intros Hz. unfold severity_chain, fgeb.
  destruct (fleb (lit 4) z1) eqn:H41.
  { rewrite (fleb_trans _ _ _ H41 Hz). intros [= <-] [= <-]. reflexivity. }
  destruct (fleb (lit 3) z1) eqn:H31.
  { rewrite (fleb_trans _ _ _ H31 Hz). intros [= <-].
    destruct (fleb (lit 4) z2); intros [= <-]; vm_compute; lia. }
  destruct (fleb (lit 2) z1) eqn:H21; [|discriminate].
  rewrite (fleb_trans _ _ _ H21 Hz). intros [= <-].
  destruct (fleb (lit 4) z2), (fleb (lit 3) z2); intros [= <-]; vm_compute; lia.
Qed.

(** C7. On a constructed detector, for two z-scores [z1 < z2] that both
    reach the low cutoff 2.0, the statistical detector's severity
    assignment gives each a tier, and the tier of [z2] is not below the tier
    of [z1] in the order [low < medium < high]. *)
Theorem severity_monotone (s : state F) (z1 z2 : F) :
  after_init s ->
  fgeb z1 (lit 2) = true ->
  fgeb z2 (lit 2) = true ->
  fltb z1 z2 = true ->
  exists t1 t2,
    determine_severity z1 s = (Ok (Some t1), s) /\
    determine_severity z2 s = (Ok (Some t2), s) /\
    severity_rank t1 <= severity_rank t2.
Proof.
  intros Hs H1 H2 Hlt.
  rewrite !(determine_severity_after_init s _ Hs).
  destruct (severity_chain_reached z1) as [t1 E1];
    [now apply fltb_false_iff|].
  destruct (severity_chain_reached z2) as [t2 E2];
    [now apply fltb_false_iff|].
  exists t1, t2. rewrite E1, E2. repeat split.
  exact (severity_chain_mono z1 z2 t1 t2 (fltb_fleb_weak _ _ Hlt) E1 E2).
Qed.

(** The same on the detector's output: among the results of one run, a
    larger score never has a lower severity. *)
Lemma statistical_output_monotone
    device_id (power : list F) timestamps s out r1 r2 :
  after_init s -> length timestamps = length power ->
  fst (_detect_statistical_anomalies device_id power timestamps s) = Ok out ->
  r1 ∈ out -> r2 ∈ out ->
  fltb (anomaly_score r1) (anomaly_score r2) = true ->
  severity_rank (severity r1) <= severity_rank (severity r2).
Proof.
  intros Hs Hlen Hrun Hr1 Hr2 Hlt.
  rewrite (statistical_run device_id power timestamps s Hs) in Hrun by lia.
  injection Hrun as <-.
  apply list_elem_of_In, in_flat_map in Hr1 as (i1 & _ & Hr1).
  apply list_elem_of_In, in_flat_map in Hr2 as (i2 & _ & Hr2).
  apply statistical_type in Hr1 as [_ E1]. apply statistical_type in Hr2 as [_ E2].
  rewrite highest_tier_chain in E1, E2.
  exact (severity_chain_mono _ _ _ _ (fltb_fleb_weak _ _ Hlt) E1 E2).
Qed.

(** *** The thresholds *)


(** *** [calculate_anomaly_score] *)

(** In exact arithmetic [calculate_anomaly_score] returns a value that is
    at least 0.  The value is 0.0 when the history has fewer than five elements, when its
    standard deviation is 0, when the method is ['modified_zscore'] and the
    median absolute deviation is 0, and when the method is neither
    ['zscore'] nor ['modified_zscore']; otherwise it is
    [|current - mean| / std] for ['zscore'] and
    [0.6745 * |current - median| / MAD] for ['modified_zscore']. *)
Theorem calculate_anomaly_score_spec
    (current_power : F) (historical_power : list F) (method : string) (s : state F) :
  let mean := np_mean historical_power in
  let std := np_std historical_power in
  let median := np_median historical_power in
  let mad := np_median (map (fun x => fabs (fsub x median)) historical_power) in
  exists v,
    calculate_anomaly_score current_power historical_power method s = (Ok v, s) /\
    fgeb v (lit 0) = true /\
    (length historical_power < 5 -> v = lit 0) /\
    (std = lit 0 -> v = lit 0) /\
    (method = "modified_zscore" -> mad = lit 0 -> v = lit 0) /\
    (method <> "zscore" -> method <> "modified_zscore" -> v = lit 0) /\
    (5 <= length historical_power -> std <> lit 0 -> method = "zscore" ->
     v = fdiv (fabs (fsub current_power mean)) std) /\
    (5 <= length historical_power -> std <> lit 0 ->
     method = "modified_zscore" -> mad <> lit 0 ->
     v = fdiv (fmul (lit 0.6745) (fabs (fsub current_power median))) mad).
Proof.
  cbv zeta. unfold calculate_anomaly_score.
  assert (H0 : fgeb (F:=F) (lit 0) (lit 0) = true) by apply fleb_refl.
  assert (Hc : fleb (F:=F) (lit 0) (lit 0.6745) = true) by now rewrite lit_fleb.
  destruct (Nat.ltb_spec (length historical_power) 5) as [Hlen|Hlen].
  { exists (lit 0). rewrite orb_true_r. repeat split; auto; intros; lia. }
  rewrite orb_false_r.
  destruct historical_power as [|h0 hs] eqn:Eh; [simpl in Hlen; lia|].
  rewrite <- Eh in *. clear Eh h0 hs.
  destruct (feqb (np_std historical_power) (lit 0)) eqn:Estd.
  { exists (lit 0). repeat split; auto; intros; try lia.
    all: apply feqb_eq in Estd; congruence. }
  assert (Hstd : np_std historical_power <> lit 0).
  { intros E. apply feqb_eq in E. congruence. }
  destruct (decide (method = "zscore")) as [->|Hz].
  { eexists. split; [reflexivity|]. repeat split; auto; try congruence; try lia.
    unfold fgeb. apply fdiv_nonneg; [apply fabs_nonneg | apply np_std_nonneg]. }
  destruct (decide (method = "modified_zscore")) as [->|Hm].
  2:{ exists (lit 0). repeat split; auto; intros; congruence. }
  set (median := np_median historical_power).
  set (mad := np_median (map (fun x => fabs (fsub x median)) historical_power)).
  destruct (feqb mad (lit 0)) eqn:Emad.
  { exists (lit 0). repeat split; auto; intros; try congruence; try lia.
    apply feqb_eq in Emad. congruence. }
  eexists. split; [reflexivity|]. repeat split; auto; try congruence; try lia.
  - unfold fgeb. apply fdiv_nonneg.
    + apply fmul_nonneg; [exact Hc | apply fabs_nonneg].
    + apply np_median_nonneg, Forall_forall. intros x Hx.
      apply list_elem_of_fmap in Hx as (y & -> & _). apply fabs_nonneg.
  - intros _ E. apply feqb_eq in E. congruence.
Qed.

(** Exact arithmetic has what it shares with the doubles. *)
Lemma exact_ieee_laws : IEEELaws F.
Proof.
  assert (Hnn : forall x : F, fltb x (lit 0) = false <-> fleb (lit 0) x = true).
  { intros x. rewrite fltb_fleb. now destruct (fleb (lit 0) x). }
  split.
  - intros z. apply fleb_trans, lit_2_3.
  - intros z. apply fleb_trans, lit_3_4.
  - intros z. rewrite fltb_fleb. now destruct (fleb (lit 2) z).
  - apply Hnn, fleb_refl.
  - apply Hnn. now rewrite lit_fleb.
  - intros x. apply Hnn, fabs_nonneg.
  - intros x y Hx%Hnn Hy%Hnn. now apply Hnn, fmul_nonneg.
  - intros x y Hx%Hnn Hy%Hnn _. now apply Hnn, fdiv_nonneg.
  - intros l. apply Hnn, np_std_nonneg.
  - intros l Hl. apply Hnn, np_median_nonneg.
    eapply Forall_impl; [exact Hl|]. intros x. apply Hnn.
Qed.

End WithLaws.

(** ** What holds in double precision as well *)

Section WithIEEELaws.

Context {il : IEEELaws F}.

(** A z-score that does not reach 2.0, NaN included, gets no tier. *)
Lemma severity_chain_unreached (z : F) :
  fgeb z (lit 2) = false -> severity_chain z = None.
Proof.
  unfold severity_chain, fgeb. intros H2.
  destruct (fleb (lit 4) z) eqn:H4.
  { apply reaches_4_3, reaches_3_2 in H4. congruence. }
  destruct (fleb (lit 3) z) eqn:H3.
  { apply reaches_3_2 in H3. congruence. }
  now rewrite H2.
Qed.

(** From 2.0 on some tier is reached. *)
Lemma severity_chain_from_low (z : F) :
  fgeb z (lit 2) = true -> is_Some (severity_chain z).
Proof.
  unfold severity_chain. intros ->.
  destruct (fgeb z (lit 4)), (fgeb z (lit 3)); eauto.
Qed.

Lemma statistical_body_ieee device_id (power : list F) timestamps s i x ts acc :
  after_init s -> power !! i = Some x -> timestamps !! i = Some ts ->
  let window_size := Nat.min 24 (length power / 2) in
  let window_data := slice power (i - window_size) i in
  let std := np_std window_data in
  (if feqb std (lit 0) then ret acc
   else
     x <- ndarray_getitem power i ;;
     let z_score := fdiv (fabs (fsub x (np_mean window_data))) std in
     sev <- determine_severity z_score ;;
     match sev with
     | None => ret acc
     | Some severity =>
         ts <- list_getitem timestamps i ;;
         p <- ndarray_getitem power i ;;
         ret (acc ++
              [mk_result device_id ts p z_score severity "statistical"
                 (py_min (lit 0.95) (fdiv z_score (lit 5)))
                 ("Power consumption " +:+ fmt1 z_score +:+
                  " standard deviations above normal")])
     end) s
  = (Ok (acc ++ spec_statistical_at device_id power timestamps i), s).
Proof.
  intros Hs Hx Hts. cbv zeta. unfold spec_statistical_at. rewrite Hx, Hts.
  destruct (feqb _ (lit 0)) eqn:Estd.
  { now rewrite app_nil_r. }
  rewrite (bind_ok _ _ _ _ _ (ndarray_getitem_ok _ _ _ _ Hx)).
  rewrite (bind_ok _ _ _ _ _ (determine_severity_after_init _ _ Hs)).
  rewrite highest_tier_chain.
  destruct (fltb _ (lit 2)) eqn:Ez.
  { rewrite (severity_chain_unreached _ (below_2 _ Ez)). now rewrite app_nil_r. }
  destruct (severity_chain _) as [tier|].
  - rewrite (bind_ok _ _ _ _ _ (list_getitem_ok _ _ _ _ Hts)).
    now rewrite (bind_ok _ _ _ _ _ (ndarray_getitem_ok _ _ _ _ Hx)).
  - now rewrite app_nil_r.
Qed.

Lemma statistical_run_ieee device_id (power : list F) timestamps s :
  after_init s -> length power <= length timestamps ->
  _detect_statistical_anomalies device_id power timestamps s
  = (Ok (flat_map (spec_statistical_at device_id power timestamps)
           (range (Nat.min 24 (length power / 2)) (length power))), s).
Proof.
  intros Hs Hlen. unfold _detect_statistical_anomalies. cbv zeta.
  rewrite (for_each_emit (spec_statistical_at device_id power timestamps));
    [reflexivity|].
  intros i acc Hi%elem_of_range.
  destruct (lookup_lt_is_Some_2 power i) as [x Hx]; [lia|].
  destruct (lookup_lt_is_Some_2 timestamps i) as [ts Hts]; [lia|].
  exact (statistical_body_ieee device_id power timestamps s i x ts acc Hs Hx Hts).
Qed.

(** C2. In double precision as in exact arithmetic, on a constructed
    detector and a series of at least ten readings that all carry a
    timestamp, the statistical detector visits the indices [w .. n-1] with
    [w = min(24, n/2)] in ascending order and yields at each what
    [spec_statistical_at] describes: nothing when the standard deviation of
    [power[i-w : i]] is 0, and otherwise one result exactly when the z-score
    reaches 2.0, of type ['statistical'], whose severity is the highest tier
    the z-score reaches, whose score is the z-score and whose confidence is
    [min(0.95, z / 5.0)].  A z-score that does not reach 2.0 yields nothing:
    that is a z-score below 2.0 and, in double precision, a z-score that is
    NaN. *)
Theorem statistical_detector_amended device_id (power : list F) timestamps s :
  10 <= length power ->
  length timestamps = length power ->
  after_init s ->
  _detect_statistical_anomalies device_id power timestamps s
  = (Ok (flat_map (spec_statistical_at device_id power timestamps)
           (range (Nat.min 24 (length power / 2)) (length power))), s)
  /\ (forall z : F, fgeb z (lit 2) = true -> is_Some (highest_tier z))
  /\ (forall z : F, fgeb z (lit 2) = false -> highest_tier z = None)
  /\ (forall z : F, fltb z (lit 2) = true -> fgeb z (lit 2) = false).
Proof.
  intros _ Hlen Hs. repeat split.
  - apply statistical_run_ieee; [assumption | lia].
  - intros z Hz. rewrite highest_tier_chain. now apply severity_chain_from_low.
  - intros z Hz. rewrite highest_tier_chain. now apply severity_chain_unreached.
  - intros z Hz. now apply below_2.
Qed.

(** C10. In double precision as in exact arithmetic,
    [calculate_anomaly_score] returns a value that is not below 0: it is at
    least 0 or, in double precision, NaN.  The value is 0.0 when the
    history has fewer than five elements, when its standard deviation
    compares equal to 0, when the method is ['modified_zscore'] and the
    median absolute deviation compares equal to 0, and when the method is
    neither ['zscore'] nor ['modified_zscore']; otherwise it is
    [|current - mean| / std] for ['zscore'] and
    [0.6745 * |current - median| / MAD] for ['modified_zscore']. *)
Theorem calculate_anomaly_score_amended
    (current_power : F) (historical_power : list F) (method : string) (s : state F) :
  let mean := np_mean historical_power in
  let std := np_std historical_power in
  let median := np_median historical_power in
  let mad := np_median (map (fun x => fabs (fsub x median)) historical_power) in
  exists v,
    calculate_anomaly_score current_power historical_power method s = (Ok v, s) /\
    fltb v (lit 0) = false /\
    (length historical_power < 5 -> v = lit 0) /\
    (feqb std (lit 0) = true -> v = lit 0) /\
    (method = "modified_zscore" -> feqb mad (lit 0) = true -> v = lit 0) /\
    (method <> "zscore" -> method <> "modified_zscore" -> v = lit 0) /\
    (5 <= length historical_power -> feqb std (lit 0) = false ->
     method = "zscore" ->
     v = fdiv (fabs (fsub current_power mean)) std) /\
    (5 <= length historical_power -> feqb std (lit 0) = false ->
     method = "modified_zscore" -> feqb mad (lit 0) = false ->
     v = fdiv (fmul (lit 0.6745) (fabs (fsub current_power median))) mad).
Proof.
  cbv zeta. unfold calculate_anomaly_score.
  pose proof (zero_not_neg (F:=F)) as H0.
  destruct (Nat.ltb_spec (length historical_power) 5) as [Hlen|Hlen].
  { exists (lit 0). rewrite orb_true_r. repeat split; auto; intros; lia. }
  rewrite orb_false_r.
  destruct historical_power as [|h0 hs] eqn:Eh; [simpl in Hlen; lia|].
  rewrite <- Eh in *. clear Eh h0 hs.
  destruct (feqb (np_std historical_power) (lit 0)) eqn:Estd.
  { exists (lit 0). repeat split; auto; intros; try lia; discriminate. }
  destruct (decide (method = "zscore")) as [->|Hz].
  { eexists. split; [reflexivity|].
    repeat split; auto; try congruence; try lia.
    apply fdiv_not_neg; [apply fabs_not_neg | apply np_std_not_neg | exact Estd]. }
  destruct (decide (method = "modified_zscore")) as [->|Hm].
  2:{ exists (lit 0). repeat split; auto; intros; congruence. }
  set (median := np_median historical_power).
  set (mad := np_median (map (fun x => fabs (fsub x median)) historical_power)).
  destruct (feqb mad (lit 0)) eqn:Emad.
  { exists (lit 0). repeat split; auto; intros; try congruence; try lia. }
  eexists. split; [reflexivity|].
  repeat split; auto; try congruence; try lia.
  apply fdiv_not_neg; [| |exact Emad].
  - apply fmul_not_neg; [apply scale_not_neg | apply fabs_not_neg].
  - apply np_median_not_neg, Forall_forall. intros x Hx.
    apply list_elem_of_fmap in Hx as (y & -> & _). apply fabs_not_neg.
Qed.

End WithIEEELaws.

(** *** Determinism *)

Lemma detect_returns device_id (data_points : list (DataPoint F)) s :
  exists out, fst (detect_anomalies_in_data device_id data_points s) = Ok out.
Proof.
  unfold detect_anomalies_in_data.
  destruct (length data_points <? 10); [now exists []|].
  unfold try_except.
  match goal with |- context [match ?m s with _ => _ end] =>
    destruct (m s) as [[out|e] s'] end.
  - now exists out.
  - now exists [].
Qed.

(** C8. Two invocations of [detect_anomalies_in_data] on the same device and
    data points, one after the other on the same instance, return the same
    list; the first leaves the instance as it found it; and the list
    depends on nothing but the instance and the arguments (not on what was
    logged by earlier calls). *)
Theorem detect_deterministic device_id (data_points : list (DataPoint F)) (s : state F) :
  let first := detect_anomalies_in_data device_id data_points s in
  let second := detect_anomalies_in_data device_id data_points (snd first) in
  exists out,
    fst first = Ok out /\ fst second = Ok out /\
    self (snd first) = self s /\ self (snd second) = self s /\
    (forall s' : state F,
       self s' = self s ->
       fst (detect_anomalies_in_data device_id data_points s') = Ok out).
Proof.
  cbv zeta. destruct (stable_detect device_id data_points) as [Hself Hout].
  destruct (detect_returns device_id data_points s) as [out Hok].
  exists out. split; [exact Hok|]. split.
  - rewrite <- Hok. apply Hout, Hself.
  - split; [apply Hself|]. split; [now rewrite !Hself|].
    intros s' Hs'. rewrite <- Hok. now apply Hout.
Qed.

End EngineProperties.

(** * The real numbers obey the laws *)

Module RealLaws.

Import RealNum.

Lemma Rleb_true (x y : R) : Rleb x y = true <-> (x <= y)%R.
Proof. unfold Rleb. destruct (Rle_dec x y); split; auto; discriminate. Qed.

Lemma Q2R_zero : Q2R 0 = 0%R.
Proof. unfold Q2R. simpl. lra. Qed.

Lemma Rsum_const (c : R) (l : list R) :
  Forall (eq c) l -> Rsum l = (INR (length l) * c)%R.
Proof.
  induction 1 as [|x l <- _ IH].
  - simpl. lra.
  - change (Rsum (c :: l)) with (c + Rsum l)%R.
    change (length (c :: l)) with (S (length l)).
    rewrite S_INR, IH. lra.
Qed.

Lemma mean_const (c : R) (l : list R) :
  Forall (eq c) l -> l <> [] -> mean l = c.
Proof.
  intros Hc Hne. unfold mean. rewrite (Rsum_const c l Hc).
  assert (INR (length l) <> 0%R).
  { apply not_0_INR. destruct l; [congruence | discriminate]. }
  now field.
Qed.

Lemma std_const (c : R) (l : list R) : Forall (eq c) l -> std l = 0%R.
Proof.
  intros Hc. unfold std.
  assert (Hz : Forall (eq 0%R)
                 (map (fun x => ((x - mean l) * (x - mean l))%R) l)).
  { apply Forall_forall. intros y Hy.
    apply list_elem_of_fmap in Hy as (x & -> & Hx).
    assert (Hne : l <> []) by (destruct l; [inversion Hx | discriminate]).
    rewrite (mean_const c l Hc Hne).
    rewrite Forall_forall in Hc. rewrite <- (Hc x Hx). lra. }
  unfold mean at 1. rewrite (Rsum_const 0 _ Hz).
  replace (_ / _)%R with 0%R.
  - apply sqrt_0.
  - unfold Rdiv. now rewrite Rmult_0_r, Rmult_0_l.
Qed.

Lemma insert_sorted_Forall (P : R -> Prop) (x : R) (l : list R) :
  P x -> Forall P l -> Forall P (insert_sorted x l).
Proof.
  intros Hx. induction 1 as [|y l Hy Hl IH]; simpl.
  - now repeat constructor.
  - destruct (Rle_dec x y); repeat constructor; assumption.
Qed.

Lemma sort_Forall (P : R -> Prop) (l : list R) :
  Forall P l -> Forall P (sort l).
Proof.
  unfold sort. induction 1; simpl; [constructor|].
  now apply insert_sorted_Forall.
Qed.

Lemma nth_nonneg (l : list R) :
  Forall (fun x => (0 <= x)%R) l -> forall k, (0 <= nth k l 0)%R.
Proof.
  induction 1 as [|x l Hx _ IH]; intros [|k]; simpl; try lra.
  apply IH.
Qed.

Lemma median_nonneg (l : list R) :
  Forall (fun x => (0 <= x)%R) l -> (0 <= median l)%R.
Proof.
  intros Hl. apply (sort_Forall _ l) in Hl. unfold median.
  pose proof (nth_nonneg _ Hl) as Hn.
  destruct (Nat.even _); [|apply Hn].
  pose proof (Hn (length (sort l) / 2 - 1)).
  pose proof (Hn (length (sort l) / 2)). lra.
Qed.

Lemma div_nonneg (x y : R) : (0 <= x)%R -> (0 <= y)%R -> (0 <= x / y)%R.
Proof.
  intros Hx Hy. destruct (Req_dec y 0) as [->|Hne].
  - unfold Rdiv. rewrite Rinv_0. lra.
  - apply Rmult_le_pos; [assumption|].
    left. apply Rinv_0_lt_compat. lra.
Qed.

End RealLaws.

Lemma R_laws : NumLaws R.
Proof.
  split; simpl.
  - intros x y. unfold RealNum.Reqb.
    destruct (Req_dec_T x y); split; auto; discriminate.
  - intros x y. rewrite !RealLaws.Rleb_true. lra.
  - intros x y z. rewrite !RealLaws.Rleb_true. lra.
  - intros x y. rewrite !RealLaws.Rleb_true. lra.
  - intros x y. unfold RealNum.Rltb, RealNum.Rleb.
    destruct (Rlt_dec x y), (Rle_dec y x); simpl; try reflexivity; lra.
  - intros p q. destruct (Qle_bool p q) eqn:E.
    + apply RealLaws.Rleb_true, Qle_Rle, Qle_bool_iff, E.
    + destruct (RealNum.Rleb (Q2R p) (Q2R q)) eqn:E'; [|reflexivity].
      apply RealLaws.Rleb_true, Rle_Qle, Qle_bool_iff in E'. congruence.
  - intros x y. apply Rmult_comm.
  - intros x. apply RealLaws.Rleb_true. rewrite RealLaws.Q2R_zero. apply Rabs_pos.
  - intros x y. rewrite !RealLaws.Rleb_true, RealLaws.Q2R_zero.
    apply Rmult_le_pos.
  - intros x y. rewrite !RealLaws.Rleb_true, RealLaws.Q2R_zero.
    apply RealLaws.div_nonneg.
  - intros l. apply RealLaws.Rleb_true. rewrite RealLaws.Q2R_zero. apply sqrt_pos.
  - intros c l Hc. rewrite RealLaws.Q2R_zero. exact (RealLaws.std_const c l Hc).
  - intros l Hl. apply RealLaws.Rleb_true. rewrite RealLaws.Q2R_zero.
    apply RealLaws.median_nonneg. eapply Forall_impl; [exact Hl|].
    intros x Hx. apply RealLaws.Rleb_true in Hx.
    now rewrite RealLaws.Q2R_zero in Hx.
Qed.

(** * The doubles obey what they share with exact arithmetic *)

Module FloatLaws.

Import SpecFloat FloatOps FloatAxioms.

(** Not below zero: a zero of either sign, a positive number, [+inf] or
    NaN. *)
Definition not_neg (f : spec_float) : bool :=
  match f with
  | S754_infinity true | S754_finite true _ _ => false
  | _ => true
  end.

Lemma lit_0_spec : Prim2SF (lit 0) = S754_zero false.
Proof. vm_compute. reflexivity. Qed.

Lemma lit_2_spec : Prim2SF (lit 2) = S754_finite false 4503599627370496 (-51).
Proof. vm_compute. reflexivity. Qed.

Lemma lit_3_spec : Prim2SF (lit 3) = S754_finite false 6755399441055744 (-51).
Proof. vm_compute. reflexivity. Qed.

Lemma lit_4_spec : Prim2SF (lit 4) = S754_finite false 4503599627370496 (-50).
Proof. vm_compute. reflexivity. Qed.

Lemma ltb_zero (x : PrimFloat.float) :
  PrimFloat.ltb x (lit 0) = negb (not_neg (Prim2SF x)).
Proof.
  rewrite ltb_spec, lit_0_spec.
  destruct (Prim2SF x) as [s|s| |s m e]; try destruct s; reflexivity.
Qed.

Lemma eqb_zero (x : PrimFloat.float) :
  PrimFloat.eqb x (lit 0)
  = match Prim2SF x with S754_zero _ => true | _ => false end.
Proof.
  rewrite eqb_spec, lit_0_spec.
  destruct (Prim2SF x) as [s|s| |s m e]; try destruct s; reflexivity.
Qed.

(** Rounding a positive quantity gives nothing below zero. *)
Lemma round_sign (mx ex : Z) (lx : location) :
  not_neg (binary_round_aux prec emax false mx ex lx) = true.
Proof.
  unfold binary_round_aux.
  destruct (shr_fexp prec emax mx ex lx) as [mrs' e'].
  destruct (shr_fexp prec emax _ e' loc_Exact) as [mrs'' e''].
  destruct (shr_m mrs''); [reflexivity | | reflexivity].
  destruct (Z.leb e'' _); reflexivity.
Qed.

Lemma abs_sign (x : PrimFloat.float) :
  PrimFloat.ltb (PrimFloat.abs x) (lit 0) = false.
Proof. rewrite ltb_zero, abs_spec. now destruct (Prim2SF x). Qed.

Lemma sqrt_sign (x : PrimFloat.float) :
  PrimFloat.ltb (PrimFloat.sqrt x) (lit 0) = false.
Proof.
  rewrite ltb_zero, sqrt_spec. unfold SF64sqrt, SFsqrt.
  destruct (Prim2SF x) as [s|s| |s m e]; try destruct s; try reflexivity.
  destruct (SFsqrt_core_binary prec emax (Z.pos m) e) as [[mz ez] lz].
  now rewrite round_sign.
Qed.

Lemma div_sign (x y : PrimFloat.float) :
  PrimFloat.ltb x (lit 0) = false -> PrimFloat.ltb y (lit 0) = false ->
  PrimFloat.eqb y (lit 0) = false ->
  PrimFloat.ltb (PrimFloat.div x y) (lit 0) = false.
Proof.
  rewrite !ltb_zero, eqb_zero, div_spec. unfold SF64div, SFdiv.
  destruct (Prim2SF x) as [s|s| |s m e], (Prim2SF y) as [t|t| |t n k];
    try destruct s; try destruct t; try discriminate; try reflexivity.
  intros _ _ _. cbn [xorb].
  destruct (SFdiv_core_binary prec emax (Z.pos m) e (Z.pos n) k) as [[mz ez] lz].
  now rewrite round_sign.
Qed.

Lemma mul_sign (x y : PrimFloat.float) :
  PrimFloat.ltb x (lit 0) = false -> PrimFloat.ltb y (lit 0) = false ->
  PrimFloat.ltb (PrimFloat.mul x y) (lit 0) = false.
Proof.
  rewrite !ltb_zero, mul_spec. unfold SF64mul, SFmul.
  destruct (Prim2SF x) as [s|s| |s m e], (Prim2SF y) as [t|t| |t n k];
    try destruct s; try destruct t; try discriminate; try reflexivity.
  intros _ _. cbn [xorb]. now rewrite round_sign.
Qed.

Lemma add_sign (x y : PrimFloat.float) :
  PrimFloat.ltb x (lit 0) = false -> PrimFloat.ltb y (lit 0) = false ->
  PrimFloat.ltb (PrimFloat.add x y) (lit 0) = false.
Proof.
  rewrite !ltb_zero, add_spec. unfold SF64add, SFadd.
  destruct (Prim2SF x) as [s|s| |s m e], (Prim2SF y) as [t|t| |t n k];
    try destruct s; try destruct t; try discriminate; try reflexivity.
  intros _ _. cbn [cond_Zopp]. rewrite <- Pos2Z.inj_add.
  generalize ((shl_align m e (Z.min e k)).1 + (shl_align n k (Z.min e k)).1)%positive.
  intros p. unfold binary_normalize, binary_round.
  destruct (shl_align p _ _) as [mz ez].
  now rewrite round_sign.
Qed.

(** Two comparisons of mantissas that contradict each other. *)
Ltac mantissa_absurd :=
  exfalso;
  repeat match goal with
         | H : _ = ?m |- _ => is_var m; subst m
         | H : ?m = _ |- _ => is_var m; subst m
         end;
  match goal with
  | H1 : (?a < ?m)%positive, H2 : (?m < ?b)%positive |- _ =>
      let H3 := fresh in
      pose proof (Pos.lt_trans _ _ _ H1 H2) as H3; vm_compute in H3;
      discriminate H3
  | H : (_ < _)%positive |- _ => vm_compute in H; discriminate H
  end.

Lemma leb_3_2 (z : PrimFloat.float) :
  PrimFloat.leb (lit 3) z = true -> PrimFloat.leb (lit 2) z = true.
Proof.
  rewrite !leb_spec, lit_2_spec, lit_3_spec. unfold SFleb, SFcompare.
  destruct (Prim2SF z) as [s|s| |s m e]; try destruct s;
    try (intros; discriminate); try (intros; reflexivity).
  destruct (Z.compare_spec (-51) e);
    try (intros; discriminate); try (intros; reflexivity).
  rewrite !Pos.compare_cont_spec.
  destruct (Pos.compare_spec 6755399441055744 m);
    destruct (Pos.compare_spec 4503599627370496 m); cbn [Pos.switch_Eq];
    try (intros; reflexivity); try (intros; discriminate);
    intros _; mantissa_absurd.
Qed.

Lemma leb_4_3 (z : PrimFloat.float) :
  PrimFloat.leb (lit 4) z = true -> PrimFloat.leb (lit 3) z = true.
Proof.
  rewrite !leb_spec, lit_3_spec, lit_4_spec. unfold SFleb, SFcompare.
  destruct (Prim2SF z) as [s|s| |s m e]; try destruct s;
    try (intros; discriminate); try (intros; reflexivity).
  destruct (Z.compare_spec (-50) e); destruct (Z.compare_spec (-51) e);
    try (intros; discriminate); try (intros; reflexivity);
    intros _; exfalso; clear - H H0; lia.
Qed.

Lemma ltb_2_leb (z : PrimFloat.float) :
  PrimFloat.ltb z (lit 2) = true -> PrimFloat.leb (lit 2) z = false.
Proof.
  rewrite ltb_spec, leb_spec, lit_2_spec. unfold SFltb, SFleb, SFcompare.
  destruct (Prim2SF z) as [s|s| |s m e]; try destruct s;
    try (intros; discriminate); try (intros; reflexivity).
  destruct (Z.compare_spec e (-51)); destruct (Z.compare_spec (-51) e);
    try (intros; discriminate); try (intros; reflexivity);
    try (intros _; exfalso; clear - H H0; lia).
  rewrite !Pos.compare_cont_spec.
  destruct (Pos.compare_spec m 4503599627370496);
    destruct (Pos.compare_spec 4503599627370496 m); cbn [Pos.switch_Eq];
    try (intros; reflexivity); try (intros; discriminate);
    intros _; mantissa_absurd.
Qed.

Lemma float_insert_Forall (P : PrimFloat.float -> Prop) x l :
  P x -> Forall P l -> Forall P (FloatNum.insert_sorted x l).
Proof.
  intros Hx. induction 1 as [|y l Hy Hl IH]; simpl.
  - now repeat constructor.
  - destruct (PrimFloat.leb x y); repeat constructor; assumption.
Qed.

Lemma float_sort_Forall (P : PrimFloat.float -> Prop) l :
  Forall P l -> Forall P (FloatNum.sort l).
Proof.
  unfold FloatNum.sort. induction 1 as [|y l Hy Hl IH]; simpl.
  - constructor.
  - now apply float_insert_Forall.
Qed.

Lemma float_nth_Forall (P : PrimFloat.float -> Prop) l d :
  Forall P l -> P d -> forall i, P (nth i l d).
Proof.
  intros Hl Hd. induction Hl as [|y l Hy Hl IH]; intros [|i]; simpl; auto.
Qed.

Lemma median_sign (l : list PrimFloat.float) :
  Forall (fun x => PrimFloat.ltb x (lit 0) = false) l ->
  PrimFloat.ltb (FloatNum.median l) (lit 0) = false.
Proof.
  intros Hl. unfold FloatNum.median.
  destruct (existsb _ l); [vm_compute; reflexivity|].
  assert (Hnth : forall i,
            PrimFloat.ltb (nth i (FloatNum.sort l) PrimFloat.nan) (lit 0) = false).
  { intros i.
    apply (float_nth_Forall (fun x => PrimFloat.ltb x (lit 0) = false)).
    - now apply float_sort_Forall.
    - vm_compute. reflexivity. }
  cbv zeta. destruct (Nat.even _); [|apply Hnth].
  unfold FloatNum.mean, FloatNum.sum. cbn [fold_left length].
  apply div_sign.
  - apply add_sign; [apply add_sign; [vm_compute; reflexivity|] |]; apply Hnth.
  - vm_compute. reflexivity.
  - vm_compute. reflexivity.
Qed.

End FloatLaws.

Lemma float_ieee_laws : IEEELaws PrimFloat.float.
Proof.
  split.
  - exact FloatLaws.leb_3_2.
  - exact FloatLaws.leb_4_3.
  - exact FloatLaws.ltb_2_leb.
  - vm_compute. reflexivity.
  - vm_compute. reflexivity.
  - exact FloatLaws.abs_sign.
  - exact FloatLaws.mul_sign.
  - exact FloatLaws.div_sign.
  - intros l. apply FloatLaws.sqrt_sign.
  - exact FloatLaws.median_sign.
Qed.

(** * The properties at concrete inputs *)

Lemma after_init_constructed (F : Type) `{NumOps F} : after_init (constructed F).
Proof. exists (fresh_state F). reflexivity. Qed.

(** C1 does not hold of the code: the two extractions filter independently.
    On [misaligned_input] nine points have both fields, yet ten power values
    and nine timestamps are extracted, so the power value at index 5 comes
    from point 5 and the timestamp at index 5 from point 6; the guard on
    fewer than ten values does not fire, and the call returns one anomaly,
    which carries the power of point 5 with the timestamp of point 6. *)
Theorem preprocessing_misaligns :
  let power := extract_power_values misaligned_input in
  let timestamps := extract_timestamps misaligned_input in
  length (List.filter valid_point misaligned_input) = 9 /\
  length power = 10 /\
  length timestamps = 9 /\
  misaligned_input !! 5 = Some (mk_point (Some (lit 100)) (Some (sample_time 5))) /\
  power !! 5 = Some (lit 100) /\
  timestamps !! 5 = Some (sample_time 6) /\
  exists r,
    fst (detect_anomalies_in_data "meter-1" misaligned_input
           (constructed PrimFloat.float)) = Ok [r] /\
    power_w r = lit 100 /\
    timestamp r = sample_time 6 /\
    severity r = "high".
Proof.
  cbv zeta. repeat split.
  eexists. split; [vm_compute; reflexivity|].
  repeat split.
Qed.

(** The statistical detector's description applied to ten readings
    [0, 1, ..., 9] over the reals. *)
Lemma statistical_detector_spec_witness :
  10 <= length (np_arange (F:=R) 10) /\
  length (hourly 10) = length (np_arange (F:=R) 10) /\
  after_init (constructed R) /\
  _detect_statistical_anomalies "meter-1" (np_arange 10) (hourly 10) (constructed R)
  = (Ok (flat_map (spec_statistical_at "meter-1" (np_arange 10) (hourly 10))
           (range 5 10)), constructed R).
Proof.
  assert (H1 : 10 <= length (np_arange (F:=R) 10)) by (simpl; lia).
  assert (H2 : length (hourly 10) = length (np_arange (F:=R) 10)) by reflexivity.
  pose proof (after_init_constructed R) as H3.
  split; [exact H1|]. split; [exact H2|]. split; [exact H3|].
  exact (proj1 (statistical_detector_spec (laws:=R_laws) "meter-1"
                  (np_arange 10) (hourly 10) (constructed R) H1 H2 H3)).
Defined.

(** The trend detector's description applied to twelve readings. *)
Lemma trend_detector_spec_witness :
  length (hourly 12) = length (np_arange (F:=R) 12) /\
  _detect_trend_anomalies "meter-1" (np_arange 12) (hourly 12) (constructed R)
  = (Ok (flat_map (spec_trend_at "meter-1" (np_arange 12) (hourly 12))
           (range 6 12)), constructed R).
Proof.
  assert (H1 : length (hourly 12) = length (np_arange (F:=R) 12)) by reflexivity.
  split; [exact H1|].
  exact (proj1 (trend_detector_spec (laws:=R_laws) "meter-1"
                  (np_arange 12) (hourly 12) (constructed R) H1)).
Defined.

(** The seasonal detector's description applied to two days of hourly
    readings. *)
Lemma seasonal_detector_spec_witness :
  after_init (constructed R) /\
  length (hourly 48) = length (np_arange (F:=R) 48) /\
  _detect_seasonal_anomalies "meter-1" (np_arange 48) (hourly 48) (constructed R)
  = (Ok (flat_map (spec_seasonal_at "meter-1" (np_arange 48) (hourly 48))
           (range 0 48)), constructed R).
Proof.
  pose proof (after_init_constructed R) as H1.
  assert (H2 : length (hourly 48) = length (np_arange (F:=R) 48)) by reflexivity.
  split; [exact H1|]. split; [exact H2|].
  exact (proj1 (seasonal_detector_spec (laws:=R_laws) "meter-1"
                  (np_arange 48) (hourly 48) (constructed R) H1 H2)).
Defined.

(** The aggregation applied to ten valid points over the reals. *)
Lemma detect_concatenates_witness :
  after_init (constructed R) /\
  Forall (fun dp => valid_point dp = true) (ramp_points R 10) /\
  10 <= length (ramp_points R 10) /\
  exists statistical trend seasonal,
    _detect_statistical_anomalies "meter-1"
      (extract_power_values (ramp_points R 10))
      (extract_timestamps (ramp_points R 10)) (constructed R)
    = (Ok statistical, constructed R) /\
    _detect_trend_anomalies "meter-1"
      (extract_power_values (ramp_points R 10))
      (extract_timestamps (ramp_points R 10)) (constructed R)
    = (Ok trend, constructed R) /\
    _detect_seasonal_anomalies "meter-1"
      (extract_power_values (ramp_points R 10))
      (extract_timestamps (ramp_points R 10)) (constructed R)
    = (Ok seasonal, constructed R) /\
    detect_anomalies_in_data "meter-1" (ramp_points R 10) (constructed R)
    = (Ok (statistical ++ trend ++ seasonal), constructed R).
Proof.
  pose proof (after_init_constructed R) as H1.
  assert (H2 : Forall (fun dp => valid_point dp = true) (ramp_points R 10))
    by (repeat constructor).
  assert (H3 : 10 <= length (ramp_points R 10)) by (simpl; lia).
  split; [exact H1|]. split; [exact H2|]. split; [exact H3|].
  destruct (detect_concatenates (laws:=R_laws) "meter-1" (ramp_points R 10)
              (constructed R) H1 H2 H3)
    as (a & b & c & Ha & Hb & Hc & Hd & _).
  exists a, b, c. exact (conj Ha (conj Hb (conj Hc Hd))).
Defined.


(** The z-scores 2.5 and 3.5 over the reals. *)
Lemma severity_monotone_witness :
  after_init (constructed R) /\
  fgeb (F:=R) (lit 2.5) (lit 2) = true /\
  fgeb (F:=R) (lit 3.5) (lit 2) = true /\
  fltb (F:=R) (lit 2.5) (lit 3.5) = true /\
  exists t1 t2,
    determine_severity (lit 2.5) (constructed R) = (Ok (Some t1), constructed R) /\
    determine_severity (lit 3.5) (constructed R) = (Ok (Some t2), constructed R) /\
    severity_rank t1 <= severity_rank t2.
Proof.
  pose proof (after_init_constructed R) as H0.
  assert (H1 : fgeb (F:=R) (lit 2.5) (lit 2) = true)
    by (unfold fgeb; rewrite (lit_fleb (NumLaws:=R_laws)); reflexivity).
  assert (H2 : fgeb (F:=R) (lit 3.5) (lit 2) = true)
    by (unfold fgeb; rewrite (lit_fleb (NumLaws:=R_laws)); reflexivity).
  assert (H3 : fltb (F:=R) (lit 2.5) (lit 3.5) = true)
    by (rewrite (fltb_fleb (NumLaws:=R_laws)), (lit_fleb (NumLaws:=R_laws));
        reflexivity).
  split; [exact H0|]. split; [exact H1|]. split; [exact H2|]. split; [exact H3|].
  exact (severity_monotone (laws:=R_laws) (constructed R) (lit 2.5) (lit 3.5)
           H0 H1 H2 H3).
Defined.


(** A score over the reals: the reading 5 against the history [0..5]. *)
Lemma calculate_anomaly_score_spec_witness :
  exists v,
    calculate_anomaly_score (lit 5) (np_arange 6) "zscore" (constructed R)
    = (Ok v, constructed R) /\
    fgeb v (lit 0) = true.
Proof.
  destruct (calculate_anomaly_score_spec (laws:=R_laws) (lit 5) (np_arange 6)
              "zscore" (constructed R))
    as (v & Hrun & Hge & _).
  exists v. exact (conj Hrun Hge).
Defined.

(** ** The amended claims on double-precision readings *)

(** The statistical detector's amended description applied to the ten
    double-precision readings of [late_jump_input]. *)
Lemma statistical_detector_amended_witness :
  let power := extract_power_values late_jump_input in
  10 <= length power /\
  length (hourly 10) = length power /\
  after_init (constructed PrimFloat.float) /\
  _detect_statistical_anomalies "meter-1" power (hourly 10)
    (constructed PrimFloat.float)
  = (Ok (flat_map (spec_statistical_at "meter-1" power (hourly 10))
           (range 5 10)), constructed PrimFloat.float).
Proof.
  cbv zeta.
  assert (H1 : 10 <= length (extract_power_values late_jump_input))
    by (vm_compute; lia).
  assert (H2 : length (hourly 10) = length (extract_power_values late_jump_input))
    by reflexivity.
  pose proof (after_init_constructed PrimFloat.float) as H3.
  split; [exact H1|]. split; [exact H2|]. split; [exact H3|].
  exact (proj1 (statistical_detector_amended (il:=float_ieee_laws) "meter-1"
                  (extract_power_values late_jump_input) (hourly 10)
                  (constructed PrimFloat.float) H1 H2 H3)).
Defined.

(** C2 as stated fails in double precision.  On ten readings of
    [2.0 ** 1023] the window before index 5 has the mean and the standard
    deviation [+inf]; the index is not skipped, its z-score is NaN, which is
    not below 2.0, and yet no tier is reached and the detector returns
    nothing. *)
Lemma statistical_nan_unflagged :
  let window := slice overflow_series 0 5 in
  let z := fdiv (fabs (fsub Overflow.huge (np_mean window))) (np_std window) in
  length overflow_series = 10 /\
  overflow_series !! 5 = Some Overflow.huge /\
  feqb (np_std window) (lit 0) = false /\
  fltb z (lit 2) = false /\
  highest_tier z = None /\
  fst (_detect_statistical_anomalies "meter-1" overflow_series (hourly 10)
         (constructed PrimFloat.float)) = Ok [] /\
  ~ (forall z : PrimFloat.float,
       fltb z (lit 2) = false -> is_Some (highest_tier z)).
Proof.
  cbv zeta. repeat split; try (vm_compute; reflexivity).
  intros Hall.
  destruct (Hall PrimFloat.nan ltac:(vm_compute; reflexivity)) as [t Ht].
  vm_compute in Ht. discriminate Ht.
Qed.

(** The score's amended description applied to the reading 5 against the
    history [0..5] in double precision. *)
Lemma calculate_anomaly_score_amended_witness :
  exists v,
    calculate_anomaly_score (lit 5) (np_arange 6) "zscore"
      (constructed PrimFloat.float)
    = (Ok v, constructed PrimFloat.float) /\
    fltb v (lit 0) = false.
Proof.
  destruct (calculate_anomaly_score_amended (il:=float_ieee_laws) (lit 5)
              (np_arange 6) "zscore" (constructed PrimFloat.float))
    as (v & Hrun & Hnn & _).
  exists v. exact (conj Hrun Hnn).
Defined.

(** C10 as stated fails in double precision.  For the reading [2.0 ** 1023]
    against five readings of [2.0 ** 1023] the mean and the standard
    deviation are [+inf] and the score is NaN; for a NaN reading against
    the history [1..5] the score is NaN too; and NaN is not at least 0. *)
Lemma score_nan_not_nonneg :
  (exists v,
     fst (calculate_anomaly_score Overflow.huge (replicate 5 Overflow.huge)
            "zscore" (constructed PrimFloat.float)) = Ok v /\
     fgeb v (lit 0) = false) /\
  (exists v,
     fst (calculate_anomaly_score PrimFloat.nan (map of_int [1; 2; 3; 4; 5])
            "zscore" (constructed PrimFloat.float)) = Ok v /\
     fgeb v (lit 0) = false).
Proof.
  split; eexists; split; vm_compute; reflexivity.
Qed.

(** ** The engine on double-precision readings *)

(** On [trend_break_points] the jump at hour 12 is flagged by the
    statistical detector and by the trend detector; both results are
    returned, the statistical ones first. *)
Example jump_flagged_twice :
  exists out,
    fst (detect_anomalies_in_data "meter-1" trend_break_points
           (constructed PrimFloat.float)) = Ok out /\
    map (fun r => (type r, hour (timestamp r), severity r)) out
    = [("statistical", 6, "low"); ("statistical", 7, "low");
       ("statistical", 8, "low"); ("statistical", 9, "low");
       ("statistical", 10, "low"); ("statistical", 11, "low");
       ("statistical", 12, "high"); ("trend", 12, "medium")].
Proof. eexists. split; vm_compute; reflexivity. Qed.

(** On [seasonal_series] the seasonal detector flags the one low reading at
    14:00 and nothing else, as [spec_seasonal_at] describes. *)
Example seasonal_outlier_flagged :
  exists r,
    _detect_seasonal_anomalies "meter-1" seasonal_series (hourly 264)
      (constructed PrimFloat.float)
    = (Ok [r], constructed PrimFloat.float) /\
    flat_map (spec_seasonal_at "meter-1" seasonal_series (hourly 264))
      (range 0 264) = [r] /\
    power_w r = lit 500 /\ hour (timestamp r) = 14 /\ severity r = "medium" /\
    explanation r = "Unusual consumption for 14:00 - 3.2 std devs from normal".
Proof.
  eexists. split; [vm_compute; reflexivity|].
  split; [vm_compute; reflexivity|]. repeat split.
Qed.

(** In double precision the standard deviation of equal readings can be a
    rounding residue instead of 0: for three readings of 0.1 it is [2^-56].
    The zero guard then does not fire, the z-score is 1, and the detector
    still yields nothing. *)
Example constant_tenths :
  let window := replicate 3 (lit (F:=PrimFloat.float) 0.1) in
  feqb (np_std window) (lit 0) = false /\
  fdiv (fabs (fsub (lit 0.1) (np_mean window))) (np_std window) = lit 1 /\
  _detect_statistical_anomalies "meter-1" (replicate 7 (lit 0.1)) (hourly 7)
    (constructed PrimFloat.float)
  = (Ok [], constructed PrimFloat.float).
Proof. cbv zeta. repeat split; vm_compute; reflexivity. Qed.

(** In double precision, too, the thresholds a constructed detector holds
    pass the ordering check. *)
Example thresholds_ordered_double :
  thresholds_ordered (self (constructed PrimFloat.float)) = true.
Proof. vm_compute. reflexivity. Qed.

(** * Further properties of the engine *)

Section RunProperties.

Context {F : Type} {ops : NumOps F}.

(** ** Methods that leave the state alone *)

Lemma silent_ret {A} (a : A) : silent (F:=F) (ret a).
Proof. intros s. reflexivity. Qed.

Lemma silent_raise {A} (e : exn) : silent (F:=F) (A:=A) (raise e).
Proof. intros s. reflexivity. Qed.

Lemma silent_bind {A B} (m : M F A) (k : A -> M F B) :
  silent m -> (forall a, silent (k a)) -> silent (bind m k).
Proof.
  intros Hm Hk s. unfold bind. specialize (Hm s).
  destruct (m s) as [[a|e] s1]; simpl in *; subst; [apply Hk | reflexivity].
Qed.

Lemma silent_threshold (key : string) : silent (F:=F) (threshold key).
Proof. intros s. unfold threshold. now destruct (_ !! key). Qed.

Lemma silent_list_getitem {A} (l : list A) (i : nat) : silent (F:=F) (list_getitem l i).
Proof. unfold list_getitem. destruct (l !! i); [apply silent_ret | apply silent_raise]. Qed.

Lemma silent_ndarray_getitem (a : list F) (i : nat) : silent (ndarray_getitem a i).
Proof. unfold ndarray_getitem. destruct (a !! i); [apply silent_ret | apply silent_raise]. Qed.

Lemma silent_for_each {A B} (body : A -> B -> M F B) :
  (forall x acc, silent (body x acc)) ->
  forall xs acc, silent (for_each xs body acc).
Proof.
  intros Hbody. induction xs as [|x xs IH]; intros acc; simpl.
  - apply silent_ret.
  - apply silent_bind; [apply Hbody | exact IH].
Qed.

Ltac silent_step :=
  match goal with
  | |- @silent _ _ (ret _) => apply silent_ret
  | |- @silent _ _ (raise _) => apply silent_raise
  | |- @silent _ _ (threshold _) => apply silent_threshold
  | |- @silent _ _ (list_getitem _ _) => apply silent_list_getitem
  | |- @silent _ _ (ndarray_getitem _ _) => apply silent_ndarray_getitem
  | |- @silent _ _ (bind _ _) => apply silent_bind; [|intros ?]
  | |- @silent _ _ (for_each _ _ _) => apply silent_for_each; intros ? ?; cbv beta
  | |- @silent _ _ ((match ?o with _ => _ end) _) => destruct o
  | |- @silent _ _ (if ?b then _ else _) => destruct b
  | |- @silent _ _ (match ?o with _ => _ end) => destruct o
  | |- @silent _ _ (let _ := _ in _) => cbv zeta
  end.

Lemma silent_determine_severity (z : F) : silent (determine_severity z).
Proof. unfold determine_severity. repeat silent_step. Qed.

Lemma silent_statistical device_id (power_values : list F) timestamps :
  silent (_detect_statistical_anomalies device_id power_values timestamps).
Proof.
  unfold _detect_statistical_anomalies. cbv zeta.
  repeat (silent_step || apply silent_determine_severity).
Qed.

Lemma silent_trend device_id (power_values : list F) timestamps :
  silent (_detect_trend_anomalies device_id power_values timestamps).
Proof. unfold _detect_trend_anomalies. repeat silent_step. Qed.

Lemma silent_seasonal device_id (power_values : list F) timestamps :
  silent (_detect_seasonal_anomalies device_id power_values timestamps).
Proof.
  unfold _detect_seasonal_anomalies, group_by_hour. repeat silent_step.
Qed.

(** X1. [detect_anomalies_in_data] never raises and leaves the instance
    unchanged.  On fewer than ten data points, or fewer than ten power
    values, it returns the empty list and logs nothing.  Otherwise it runs
    the statistical, the trend and the seasonal detector in this order, each
    on the state of the call: when all three return, the result is their
    results in this order and nothing is logged; when one raises, the later
    ones are not consulted, the result is the empty list, and the log grows
    by exactly one line, which names the device and the exception of the
    first detector that raised. *)
Theorem detect_outcome device_id (data_points : list (DataPoint F)) (s : state F) :
  let power := extract_power_values data_points in
  let timestamps := extract_timestamps data_points in
  detect_anomalies_in_data device_id data_points s
  = if (length data_points <? 10) || (length power <? 10) then (Ok [], s)
    else
      match fst (_detect_statistical_anomalies device_id power timestamps s) with
      | Raise e => failed device_id s e
      | Ok statistical =>
          match fst (_detect_trend_anomalies device_id power timestamps s) with
          | Raise e => failed device_id s e
          | Ok trend =>
              match fst (_detect_seasonal_anomalies device_id power timestamps s) with
              | Raise e => failed device_id s e
              | Ok seasonal => (Ok (statistical ++ trend ++ seasonal), s)
              end
          end
      end.
Proof.
  intros power timestamps. unfold detect_anomalies_in_data.
  destruct (length data_points <? 10); [reflexivity|]. cbn [orb].
  unfold try_except. cbv zeta. fold power timestamps.
  destruct (length power <? 10); [reflexivity|]. unfold bind.
  pose proof (silent_statistical device_id power timestamps s) as H1.
  destruct (_detect_statistical_anomalies device_id power timestamps s)
    as [[a|e] s1]; simpl in H1; subst s1; [|reflexivity].
  pose proof (silent_trend device_id power timestamps s) as H2.
  destruct (_detect_trend_anomalies device_id power timestamps s)
    as [[b|e] s2]; simpl in H2; subst s2; [|reflexivity].
  pose proof (silent_seasonal device_id power timestamps s) as H3.
  destruct (_detect_seasonal_anomalies device_id power timestamps s)
    as [[c|e] s3]; simpl in H3; subst s3; [|reflexivity].
  unfold ret. cbn [fst app]. now rewrite <- app_assoc.
Qed.

(** ** A flagged reading without a timestamp *)

(** A loop one of whose turns raises [e], while every other turn returns or
    raises the same [e], raises [e]. *)
Lemma for_each_raises {A B} (body : A -> B -> M F B) s e x :
  forall xs : list A,
    x ∈ xs ->
    (forall y acc, y ∈ xs ->
       (exists acc', body y acc s = (Ok acc', s)) \/ body y acc s = (Raise e, s)) ->
    (forall acc, body x acc s = (Raise e, s)) ->
    forall acc, for_each xs body acc s = (Raise e, s).
Proof.
  induction xs as [|y xs IH]; intros Hx Hall Hraise acc.
  - inversion Hx.
  - simpl. destruct (Hall y acc (list_elem_of_here _ _)) as [[acc' Hok]|Hr].
    + rewrite (bind_ok _ _ _ _ _ Hok).
      apply elem_of_cons in Hx as [->|Hx].
      * rewrite Hraise in Hok. discriminate.
      * apply IH; [assumption | | assumption].
        intros z acc0 Hz. apply Hall. now apply list_elem_of_further.
    + now rewrite (bind_raise _ _ _ _ _ Hr).
Qed.

Lemma length_omap_le {A B} (f : A -> option B) (l : list A) :
  length (omap f l) <= length l.
Proof.
  unfold omap. induction l as [|a l IH]; simpl; [lia|].
  destruct (f a); simpl; lia.
Qed.

(** One turn of the statistical detector's loop for any list of
    timestamps. *)
Lemma statistical_turn device_id (power : list F) timestamps s i acc :
  after_init s -> i < length power ->
  let window_size := Nat.min 24 (length power / 2) in
  let window_data := slice power (i - window_size) i in
  let std := np_std window_data in
  let turn :=
    (if feqb std (lit 0) then ret acc
     else
       x <- ndarray_getitem power i ;;
       let z_score := fdiv (fabs (fsub x (np_mean window_data))) std in
       sev <- determine_severity z_score ;;
       match sev with
       | None => ret acc
       | Some severity =>
           ts <- list_getitem timestamps i ;;
           p <- ndarray_getitem power i ;;
           ret (acc ++
                [mk_result device_id ts p z_score severity "statistical"
                   (py_min (lit 0.95) (fdiv z_score (lit 5)))
                   ("Power consumption " +:+ fmt1 z_score +:+
                    " standard deviations above normal")])
       end) in
  (statistical_flags power i = true -> timestamps !! i = None ->
   turn s = (Raise (IndexError "list index out of range"), s)) /\
  ((exists acc', turn s = (Ok acc', s)) \/
   turn s = (Raise (IndexError "list index out of range"), s)).
Proof.
  intros Hs Hi. cbv zeta. unfold statistical_flags.
  destruct (lookup_lt_is_Some_2 power i Hi) as [x Hx]. rewrite Hx.
  destruct (feqb _ (lit 0)) eqn:Estd.
  { split; [discriminate | left; eauto]. }
  rewrite (bind_ok _ _ _ _ _ (ndarray_getitem_ok _ _ _ _ Hx)).
  rewrite (bind_ok _ _ _ _ _ (determine_severity_after_init _ _ Hs)).
  destruct (severity_chain _) as [tier|] eqn:Echain.
  2:{ split; [|left; eauto]. simpl. discriminate. }
  unfold list_getitem. destruct (timestamps !! i) as [ts|] eqn:Ets.
  - split; [discriminate|]. left.
    rewrite (bind_ok _ _ _ _ _ (eq_refl : ret ts s = (Ok ts, s))).
    rewrite (bind_ok _ _ _ _ _ (ndarray_getitem_ok _ _ _ _ Hx)). eauto.
  - split; [|right]; reflexivity.
Qed.

(** X2. On a constructed detector, when some index that the statistical
    detector flags has no timestamp (the timestamps list is too short),
    the detector raises [IndexError], and [detect_anomalies_in_data] then
    returns the empty list, dropping every anomaly found before, and logs
    one line that names the device and the exception. *)
Theorem missing_timestamp_discards_all
    device_id (data_points : list (DataPoint F)) (s : state F) (i : nat) :
  let power := extract_power_values data_points in
  let timestamps := extract_timestamps data_points in
  after_init s ->
  10 <= length power ->
  Nat.min 24 (length power / 2) <= i < length power ->
  statistical_flags power i = true ->
  length timestamps <= i ->
  _detect_statistical_anomalies device_id power timestamps s
  = (Raise (IndexError "list index out of range"), s) /\
  detect_anomalies_in_data device_id data_points s
  = (Ok [],
     mk_state (self s)
       (logged s ++
        [failure_line device_id (IndexError "list index out of range")])).
Proof.
  intros power timestamps Hs Hlen Hi Hflag Hts.
  assert (Hstat : _detect_statistical_anomalies device_id power timestamps s
                  = (Raise (IndexError "list index out of range"), s)).
  { unfold _detect_statistical_anomalies. cbv zeta.
    apply for_each_raises with (x := i).
    - now apply elem_of_range.
    - intros j acc Hj%elem_of_range.
      apply (statistical_turn device_id power timestamps s j acc Hs). lia.
    - intros acc.
      apply (statistical_turn device_id power timestamps s i acc Hs);
        [lia | assumption | now apply lookup_ge_None_2]. }
  split; [exact Hstat|].
  unfold detect_anomalies_in_data.
  pose proof (length_omap_le dp_power_w data_points) as Hle.
  fold (extract_power_values data_points) in Hle. fold power in Hle.
  destruct (Nat.ltb_spec (length data_points) 10); [lia|].
  unfold try_except. cbv zeta. fold power timestamps.
  destruct (Nat.ltb_spec (length power) 10); [lia|].
  now rewrite (bind_raise _ _ _ _ _ Hstat).
Qed.

(** ** What every result looks like *)

Lemma bind_inv {A B} (m : M F A) (k : A -> M F B) s b s' :
  bind m k s = (Ok b, s') ->
  exists a s1, m s = (Ok a, s1) /\ k a s1 = (Ok b, s').
Proof.
  unfold bind. destruct (m s) as [[a|e] s1]; [eauto | discriminate].
Qed.

Lemma ret_inv {A} (a b : A) (s s' : state F) : ret a s = (Ok b, s') -> a = b.
Proof. now intros [= -> _]. Qed.

(** An invariant of the accumulator that every returning turn keeps holds
    of what the loop returns. *)
Lemma for_each_invariant {A B} (I : B -> Prop) (body : A -> B -> M F B) :
  (forall x acc s1 acc' s2, body x acc s1 = (Ok acc', s2) -> I acc -> I acc') ->
  forall xs acc s1 out s2,
    for_each xs body acc s1 = (Ok out, s2) -> I acc -> I out.
Proof.
  intros Hbody. induction xs as [|x xs IH]; intros acc s1 out s2 Hrun Hacc.
  - apply ret_inv in Hrun. now subst.
  - simpl in Hrun. apply bind_inv in Hrun as (acc' & s' & Hturn & Hrest).
    eapply IH; [exact Hrest|]. eapply Hbody; eassumption.
Qed.

Ltac invert_run :=
  repeat match goal with
  | H : ret _ _ = (Ok _, _) |- _ => apply ret_inv in H; subst
  | H : bind _ _ _ = (Ok _, _) |- _ =>
      let a := fresh "a" in let s := fresh "s" in let Ha := fresh "Ha" in
      apply bind_inv in H as (a & s & Ha & H)
  | H : (if ?b then _ else _) _ = (Ok _, _) |- _ => destruct b eqn:?
  | H : (match ?o with _ => _ end) _ = (Ok _, _) |- _ => destruct o eqn:?
  end.

Lemma determine_severity_tier (z : F) s tier s' :
  determine_severity z s = (Ok (Some tier), s') ->
  tier = "low" \/ tier = "medium" \/ tier = "high".
Proof.
  unfold determine_severity. intros Hrun. invert_run;
    first [ apply ret_inv in Hrun | idtac ]; try discriminate;
    try (injection Hrun as <-); auto.
Qed.

Lemma statistical_shape device_id (power : list F) timestamps s out s' :
  _detect_statistical_anomalies device_id power timestamps s = (Ok out, s') ->
  Forall (result_shape device_id) out.
Proof.
  unfold _detect_statistical_anomalies. cbv zeta. intros Hrun.
  eapply (for_each_invariant (Forall (result_shape device_id)));
    [|exact Hrun|constructor].
  clear. intros i acc s1 acc' s2 Hturn Hacc. cbv beta in Hturn.
  invert_run; try assumption.
  apply Forall_app. split; [assumption|].
  constructor; [|constructor]. split; [reflexivity|]. left.
  repeat split.
  match goal with H : determine_severity _ _ = _ |- _ =>
    apply determine_severity_tier in H end. assumption.
Qed.

Lemma trend_shape device_id (power : list F) timestamps s out s' :
  _detect_trend_anomalies device_id power timestamps s = (Ok out, s') ->
  Forall (result_shape device_id) out.
Proof.
  unfold _detect_trend_anomalies. intros Hrun.
  destruct (length power <? 12).
  { apply ret_inv in Hrun. subst. constructor. }
  eapply (for_each_invariant (Forall (result_shape device_id)));
    [|exact Hrun|constructor].
  clear. intros i acc s1 acc' s2 Hturn Hacc. cbv beta zeta in Hturn.
  invert_run; try assumption.
  apply Forall_app. split; [assumption|].
  constructor; [|constructor]. split; [reflexivity|]. right. left.
  repeat split.
Qed.

Lemma seasonal_shape device_id (power : list F) timestamps s out s' :
  _detect_seasonal_anomalies device_id power timestamps s = (Ok out, s') ->
  Forall (result_shape device_id) out.
Proof.
  unfold _detect_seasonal_anomalies. intros Hrun.
  destruct (length power <? 48).
  { apply ret_inv in Hrun. subst. constructor. }
  apply bind_inv in Hrun as (G & s1 & _ & Hrun). cbv zeta in Hrun.
  eapply (for_each_invariant (Forall (result_shape device_id)));
    [|exact Hrun|constructor].
  clear. intros [i [t p]] acc s1 acc' s2 Hturn Hacc. cbv beta zeta in Hturn.
  invert_run; try assumption;
    (apply Forall_app; split; [assumption|];
     constructor; [|constructor]; split; [reflexivity|]; right; right;
     split; [reflexivity|]; split; [|reflexivity];
     cbn [severity];
     match goal with |- context [if ?c then "high" else "medium"] =>
       destruct c end; [right | left]; reflexivity).
Qed.

Lemma detect_shape device_id (data_points : list (DataPoint F)) s out :
  fst (detect_anomalies_in_data device_id data_points s) = Ok out ->
  Forall (result_shape device_id) out.
Proof.
  unfold detect_anomalies_in_data.
  destruct (length data_points <? 10).
  { intros [= <-]. constructor. }
  unfold try_except. cbv zeta.
  match goal with |- context [match ?m s with _ => _ end] =>
    destruct (m s) as [[l|e] s1] eqn:Hbody end.
  2:{ intros [= <-]. constructor. }
  intros [= <-].
  destruct (length (extract_power_values data_points) <? 10).
  { apply ret_inv in Hbody. subst. constructor. }
  invert_run. cbn [app].
  repeat (apply Forall_app; split);
    eauto using statistical_shape, trend_shape, seasonal_shape.
Qed.

(** X3. For every anomaly [detect_anomalies_in_data] returns, whatever the
    input and the instance, [get_anomaly_recommendations] returns without
    an exception at most one recommendation: none for a statistical anomaly
    of severity low or medium, one of priority ['high'] for a statistical
    anomaly of severity high, one of priority ['medium'] for a trend
    anomaly and one of priority ['low'] for a seasonal anomaly. *)
Theorem recommendations_for_results
    device_id (data_points : list (DataPoint F)) (s : state F) :
  exists out,
    fst (detect_anomalies_in_data device_id data_points s) = Ok out /\
    Forall
      (fun r =>
         assigned_label r /\
         forall context s',
         exists recs,
           get_anomaly_recommendations r context s' = (Ok recs, s') /\
           map rec_priority recs = recommended_priority r /\
           length recs <= 1 /\
           (recs = [] <->
            type r = "statistical" /\ severity r <> "high"))
      out.
Proof.
  destruct (detect_returns device_id data_points s) as [out Hout].
  exists out. split; [exact Hout|].
  apply detect_shape in Hout. eapply Forall_impl; [exact Hout|].
  intros r [_ Hshape]. split.
  { unfold assigned_label. tauto. }
  intros context s'.
  unfold get_anomaly_recommendations, recommended_priority.
  destruct Hshape as [(Ht & Hs & _)|[(Ht & Hs & _)|(Ht & Hs & _)]];
    rewrite Ht.
  - destruct Hs as [Hs|[Hs|Hs]]; rewrite Hs; simpl;
      eexists; (split; [reflexivity|]); repeat split;
      simpl; try lia; try discriminate; try tauto;
      intros; try discriminate; tauto.
  - rewrite Hs. simpl. eexists. split; [reflexivity|].
    repeat split; simpl; try lia; try discriminate.
    intros [[=] _].
  - destruct Hs as [Hs|Hs]; rewrite Hs; simpl;
      eexists; (split; [reflexivity|]); repeat split; simpl; try lia;
      try discriminate; intros [[=] _].
Qed.

(** ** Properties that rest on the laws of exact arithmetic *)

Section RunLaws.

Context {laws : NumLaws F}.

Lemma py_min_le (a b : F) : fleb (py_min a b) a = true.
Proof.
  unfold py_min. destruct (fltb b a) eqn:E.
  - now apply fltb_fleb_weak.
  - apply fleb_refl.
Qed.

(** X4. Every anomaly [detect_anomalies_in_data] returns, whatever the
    input and the instance, carries the device id of the call, a type with a
    severity that its detector assigns (statistical: low, medium or high;
    trend: medium; seasonal: medium or high) and a confidence of at most
    0.95. *)
Theorem results_well_formed
    (device : string) (data_points : list (DataPoint F)) (s : state F) :
  exists out,
    fst (detect_anomalies_in_data device data_points s) = Ok out /\
    Forall
      (fun r =>
         device_id r = device /\
         assigned_label r /\
         fleb (confidence r) (lit 0.95) = true)
      out.
Proof.
  destruct (detect_returns device data_points s) as [out Hout].
  exists out. split; [exact Hout|].
  apply detect_shape in Hout. eapply Forall_impl; [exact Hout|].
  intros r [Hdev Hshape]. split; [exact Hdev|]. split.
  { unfold assigned_label. tauto. }
  destruct Hshape as [(_ & _ & ->)|[(_ & _ & ->)|(_ & _ & ->)]].
  - apply py_min_le.
  - now rewrite lit_fleb.
  - apply (fleb_trans _ (lit 0.9)); [apply py_min_le | now rewrite lit_fleb].
Qed.

(** The severity assignment as a function of the thresholds dictionary. *)
Lemma determine_severity_run (z : F) (s : state F) :
  determine_severity z s
  = (match anomaly_thresholds (self s) !! "high" with
     | None => Raise (KeyError "high")
     | Some high =>
         if fleb high z then Ok (Some "high")
         else
           match anomaly_thresholds (self s) !! "medium" with
           | None => Raise (KeyError "medium")
           | Some medium =>
               if fleb medium z then Ok (Some "medium")
               else
                 match anomaly_thresholds (self s) !! "low" with
                 | None => Raise (KeyError "low")
                 | Some low =>
                     if fleb low z then Ok (Some "low") else Ok None
                 end
           end
     end, s).
Proof.
  unfold determine_severity, bind, threshold, ret, fgeb.
  destruct (anomaly_thresholds (self s) !! "high") as [high|]; [|reflexivity].
  destruct (fleb high z); [reflexivity|].
  destruct (anomaly_thresholds (self s) !! "medium") as [medium|]; [|reflexivity].
  destruct (fleb medium z); [reflexivity|].
  destruct (anomaly_thresholds (self s) !! "low") as [low|]; [|reflexivity].
  now destruct (fleb low z).
Qed.

(** X5. Whatever thresholds the instance holds, in ascending order or not,
    the severity assignment is monotone: when two z-scores [z1 <= z2] are
    both given a tier, the tier of [z2] is not below the tier of [z1]. *)
Theorem severity_monotone_any_thresholds
    (s s1 s2 : state F) (z1 z2 : F) (t1 t2 : string) :
  fleb z1 z2 = true ->
  determine_severity z1 s = (Ok (Some t1), s1) ->
  determine_severity z2 s = (Ok (Some t2), s2) ->
  severity_rank t1 <= severity_rank t2.
Proof.
  intros Hz. rewrite !determine_severity_run.
  destruct (anomaly_thresholds (self s) !! "high") as [high|]; [|discriminate].
  destruct (fleb high z1) eqn:H1.
  { rewrite (fleb_trans _ _ _ H1 Hz). intros [= <- _] [= <- _]. reflexivity. }
  destruct (anomaly_thresholds (self s) !! "medium") as [medium|];
    [|discriminate].
  destruct (fleb medium z1) eqn:M1.
  { intros [= <- _].
    destruct (fleb high z2); [intros [= <- _]; vm_compute; lia|].
    rewrite (fleb_trans _ _ _ M1 Hz). intros [= <- _]. reflexivity. }
  destruct (anomaly_thresholds (self s) !! "low") as [low|]; [|discriminate].
  destruct (fleb low z1) eqn:L1; [|discriminate].
  intros [= <- _].
  destruct (fleb high z2); [intros [= <- _]; vm_compute; lia|].
  destruct (fleb medium z2); [intros [= <- _]; vm_compute; lia|].
  rewrite (fleb_trans _ _ _ L1 Hz). intros [= <- _]. reflexivity.
Qed.

(** X6. On a constructed detector and a series of at least ten readings
    with one timestamp each, the score of every anomaly the statistical
    detector returns is the score [calculate_anomaly_score] gives, with the
    method ['zscore'], to the anomaly's reading against the window before
    it; the reading lies at or after index [min(24, n/2)]. *)
Theorem score_agrees_with_detector
    device_id (power : list F) timestamps (s : state F) :
  10 <= length power ->
  length timestamps = length power ->
  after_init s ->
  let w := Nat.min 24 (length power / 2) in
  exists out,
    _detect_statistical_anomalies device_id power timestamps s = (Ok out, s) /\
    Forall
      (fun r =>
         exists i,
           w <= i < length power /\
           power !! i = Some (power_w r) /\
           timestamps !! i = Some (timestamp r) /\
           calculate_anomaly_score (power_w r) (slice power (i - w) i) "zscore" s
           = (Ok (anomaly_score r), s))
      out.
Proof.
  intros Hn Hlen Hs w. eexists. split.
  { apply statistical_run; [assumption | lia]. }
  apply Forall_forall. intros r Hr.
  apply list_elem_of_In, in_flat_map in Hr as (i & Hi & Hr).
  apply list_elem_of_In, elem_of_range in Hi. fold w in Hi.
  exists i. split; [exact Hi|].
  unfold spec_statistical_at in Hr. fold w in Hr.
  destruct (power !! i) as [x|]; [|destruct Hr].
  destruct (timestamps !! i) as [ts|]; [|destruct Hr].
  destruct (feqb _ (lit 0)) eqn:Estd; [destruct Hr|].
  destruct (fltb _ (lit 2)); [destruct Hr|].
  destruct (highest_tier _); [|destruct Hr].
  destruct Hr as [<-|[]]. cbn [power_w timestamp anomaly_score].
  repeat split.
  unfold calculate_anomaly_score.
  assert (Hw : 5 <= w).
  { unfold w. pose proof (Nat.div_le_lower_bound (length power) 2 5). lia. }
  assert (Hl : length (slice power (i - w) i) = w).
  { rewrite length_slice by lia. lia. }
  rewrite Hl. destruct (Nat.ltb_spec w 5); [lia|].
  destruct (slice power (i - w) i) eqn:Eslice; [simpl in Hl; lia|].
  rewrite <- Eslice in Estd |- *. cbn [orb]. rewrite Estd.
  now destruct (decide ("zscore" = "zscore")).
Qed.

(** *** Results and the data points they come from *)

Lemma statistical_at_fields device_id (power : list F) timestamps i r :
  In r (spec_statistical_at device_id power timestamps i) ->
  power !! i = Some (power_w r) /\ timestamps !! i = Some (timestamp r).
Proof.
  unfold spec_statistical_at.
  destruct (power !! i); [|intros []].
  destruct (timestamps !! i); [|intros []].
  destruct (feqb _ _); [intros []|].
  destruct (fltb _ _); [intros []|].
  destruct (highest_tier _); [|intros []].
  intros [<-|[]]. now split.
Qed.

Lemma trend_at_fields device_id (power : list F) timestamps i r :
  In r (spec_trend_at device_id power timestamps i) ->
  power !! i = Some (power_w r) /\ timestamps !! i = Some (timestamp r).
Proof.
  unfold spec_trend_at.
  destruct (power !! i); [|intros []].
  destruct (timestamps !! i); [|intros []].
  destruct (fgtb _ _); [|intros []].
  destruct (fgtb _ _); [|intros []].
  intros [<-|[]]. now split.
Qed.

Lemma seasonal_at_fields device_id (power : list F) timestamps i r :
  In r (spec_seasonal_at device_id power timestamps i) ->
  power !! i = Some (power_w r) /\ timestamps !! i = Some (timestamp r).
Proof.
  unfold spec_seasonal_at.
  destruct (power !! i); [|intros []].
  destruct (timestamps !! i); [|intros []].
  destruct (_ <? 3); [intros []|].
  destruct (feqb _ _); [intros []|].
  destruct (fgeb _ _); [|intros []].
  intros [<-|[]]. now split.
Qed.

Lemma valid_lookup (data_points : list (DataPoint F)) :
  Forall (fun dp => valid_point dp = true) data_points ->
  forall i x t,
    extract_power_values data_points !! i = Some x ->
    extract_timestamps data_points !! i = Some t ->
    exists dp,
      data_points !! i = Some dp /\
      dp_power_w dp = Some x /\ dp_timestamp dp = Some t.
Proof.
  unfold extract_power_values, extract_timestamps.
  induction 1 as [|[[p|] [ts|]] dps Hdp _ IH];
    try (simpl in Hdp; discriminate Hdp); intros i x t Hx Ht.
  - destruct i; simpl in Hx; discriminate Hx.
  - destruct i as [|i]; simpl in Hx, Ht.
    + injection Hx as <-. injection Ht as <-. eexists. now repeat split.
    + exact (IH i x t Hx Ht).
Qed.

(** The run of [detect_anomalies_in_data] on valid input, detector by
    detector. *)
Lemma detect_run_valid device_id (data_points : list (DataPoint F)) s :
  after_init s ->
  Forall (fun dp => valid_point dp = true) data_points ->
  10 <= length data_points ->
  let power := extract_power_values data_points in
  let timestamps := extract_timestamps data_points in
  let n := length data_points in
  detect_anomalies_in_data device_id data_points s
  = (Ok (flat_map (spec_statistical_at device_id power timestamps)
           (range (Nat.min 24 (n / 2)) n) ++
         (if n <? 12 then []
          else flat_map (spec_trend_at device_id power timestamps) (range 6 n)) ++
         (if n <? 48 then []
          else flat_map (spec_seasonal_at device_id power timestamps)
                 (range 0 n))), s).
Proof.
  intros Hs Hvalid Hlen power timestamps n.
  destruct (extract_valid data_points Hvalid) as [Hp Ht].
  fold power in Hp. fold timestamps in Ht. fold n in Hp, Ht.
  pose proof (statistical_run device_id power timestamps s Hs ltac:(lia)) as Hstat.
  pose proof (trend_run device_id power timestamps s ltac:(lia)) as Htrend.
  pose proof (seasonal_run device_id power timestamps s Hs ltac:(lia)) as Hseas.
  rewrite Hp in Hstat, Htrend, Hseas.
  unfold detect_anomalies_in_data. fold n.
  destruct (Nat.ltb_spec n 10); [lia|].
  unfold try_except. cbv zeta. fold power timestamps. rewrite Hp.
  destruct (Nat.ltb_spec n 10); [lia|].
  rewrite (bind_ok _ _ _ _ _ Hstat), (bind_ok _ _ _ _ _ Htrend),
    (bind_ok _ _ _ _ _ Hseas).
  unfold ret. cbn [app]. now rewrite <- app_assoc.
Qed.

(** X7. On a constructed detector and at least ten data points that all
    carry both fields, every anomaly [detect_anomalies_in_data] returns
    carries the power value and the timestamp of one and the same data
    point. *)
Theorem results_pair_valid_points
    device_id (data_points : list (DataPoint F)) (s : state F) :
  after_init s ->
  Forall (fun dp => valid_point dp = true) data_points ->
  10 <= length data_points ->
  exists out,
    detect_anomalies_in_data device_id data_points s = (Ok out, s) /\
    Forall
      (fun r =>
         exists i dp,
           data_points !! i = Some dp /\
           dp_power_w dp = Some (power_w r) /\
           dp_timestamp dp = Some (timestamp r))
      out.
Proof.
  intros Hs Hvalid Hlen. eexists. split.
  { exact (detect_run_valid device_id data_points s Hs Hvalid Hlen). }
  assert (Hpair : forall i r,
            extract_power_values data_points !! i = Some (power_w r) /\
            extract_timestamps data_points !! i = Some (timestamp r) ->
            exists i dp,
              data_points !! i = Some dp /\
              dp_power_w dp = Some (power_w r) /\
              dp_timestamp dp = Some (timestamp r)).
  { intros i r [Hp Ht]. exists i. exact (valid_lookup _ Hvalid i _ _ Hp Ht). }
  apply Forall_forall. intros r Hr.
  apply list_elem_of_In in Hr.
  apply in_app_or in Hr as [Hr|Hr]; [|apply in_app_or in Hr as [Hr|Hr]].
  - apply in_flat_map in Hr as (i & _ & Hr).
    exact (Hpair i r (statistical_at_fields _ _ _ _ _ Hr)).
  - destruct (_ <? 12); [destruct Hr|].
    apply in_flat_map in Hr as (i & _ & Hr).
    exact (Hpair i r (trend_at_fields _ _ _ _ _ Hr)).
  - destruct (_ <? 48); [destruct Hr|].
    apply in_flat_map in Hr as (i & _ & Hr).
    exact (Hpair i r (seasonal_at_fields _ _ _ _ _ Hr)).
Qed.

Lemma length_flat_map_le {A B} (f : A -> list B) (l : list A) :
  (forall x, length (f x) <= 1) -> length (flat_map f l) <= length l.
Proof.
  intros Hf. induction l as [|x l IH]; simpl; [lia|].
  rewrite length_app. specialize (Hf x). lia.
Qed.

Lemma statistical_at_length device_id (power : list F) timestamps i :
  length (spec_statistical_at device_id power timestamps i) <= 1.
Proof.
  unfold spec_statistical_at.
  destruct (power !! i); [|simpl; lia].
  destruct (timestamps !! i); [|simpl; lia].
  destruct (feqb _ _); [simpl; lia|].
  destruct (fltb _ _); [simpl; lia|].
  destruct (highest_tier _); simpl; lia.
Qed.

Lemma trend_at_length device_id (power : list F) timestamps i :
  length (spec_trend_at device_id power timestamps i) <= 1.
Proof.
  unfold spec_trend_at.
  destruct (power !! i); [|simpl; lia].
  destruct (timestamps !! i); [|simpl; lia].
  destruct (fgtb _ _); [|simpl; lia].
  destruct (fgtb _ _); simpl; lia.
Qed.

Lemma seasonal_at_length device_id (power : list F) timestamps i :
  length (spec_seasonal_at device_id power timestamps i) <= 1.
Proof.
  unfold spec_seasonal_at.
  destruct (power !! i); [|simpl; lia].
  destruct (timestamps !! i); [|simpl; lia].
  destruct (_ <? 3); [simpl; lia|].
  destruct (feqb _ _); [simpl; lia|].
  destruct (fgeb _ _); simpl; lia.
Qed.

(** X8. On a constructed detector and [n >= 10] data points that all carry
    both fields, [detect_anomalies_in_data] returns at most
    [(n - min(24, n/2)) + (n - 6) + n] anomalies: each detector yields at
    most one per index it visits. *)
Theorem results_count_bound
    device_id (data_points : list (DataPoint F)) (s : state F) :
  after_init s ->
  Forall (fun dp => valid_point dp = true) data_points ->
  10 <= length data_points ->
  let n := length data_points in
  exists out,
    detect_anomalies_in_data device_id data_points s = (Ok out, s) /\
    length out <= (n - Nat.min 24 (n / 2)) + (n - 6) + n.
Proof.
  intros Hs Hvalid Hlen n. eexists. split.
  { exact (detect_run_valid device_id data_points s Hs Hvalid Hlen). }
  fold n. rewrite !length_app.
  pose proof (length_flat_map_le _ (range (Nat.min 24 (n / 2)) n)
                (statistical_at_length device_id
                   (extract_power_values data_points)
                   (extract_timestamps data_points))) as H1.
  pose proof (length_flat_map_le _ (range 6 n)
                (trend_at_length device_id
                   (extract_power_values data_points)
                   (extract_timestamps data_points))) as H2.
  pose proof (length_flat_map_le _ (range 0 n)
                (seasonal_at_length device_id
                   (extract_power_values data_points)
                   (extract_timestamps data_points))) as H3.
  unfold range in H1, H2, H3. rewrite length_seq in H1, H2, H3.
  unfold range.
  destruct (n <? 12); destruct (n <? 48); cbn [length]; lia.
Qed.

(** *** The hourly groups and baselines *)

(** X9. When there are at most as many timestamps as power values, the
    grouping loop returns, leaves the state, and the table it builds holds,
    for each hour, the power values of the points stamped with that hour in
    series order (no entry for an hour without points); [baselines_of] then
    has an entry exactly for the hours with at least three such values, made
    of their mean and standard deviation. *)
Theorem hourly_baselines_table
    (power : list F) (timestamps : list datetime) (s : state F) :
  length timestamps <= length power ->
  exists G,
    group_by_hour power timestamps s = (Ok G, s) /\
    forall h,
      let samples := hour_readings power timestamps h in
      map snd <$> G !! h
      = (if decide (samples = []) then None else Some samples) /\
      baselines_of G !! h
      = (if 3 <=? length samples
         then Some (mk_baseline (np_mean samples) (np_std samples))
         else None).
Proof.
  intros Hlen.
  destruct (group_loop power s (imap pair timestamps))
    with (G0 := (∅ : gmap nat (list (nat * F)))) as (G & Hrun & HG).
  { intros it (j & t & -> & Ht)%elem_of_lookup_imap. simpl.
    apply lookup_lt_is_Some_2. apply lookup_lt_Some in Ht. lia. }
  exists G. split; [exact Hrun|]. intros h. cbv zeta.
  unfold baselines_of. rewrite lookup_omap, HG, lookup_empty.
  rewrite <- (hour_entries_enumerate power timestamps h Hlen).
  destruct (hour_entries power (imap pair timestamps) h) as [|e es].
  - split; reflexivity.
  - cbn [merge_group]. split; [reflexivity|].
    cbn [mbind option_bind]. now rewrite length_map.
Qed.

Lemma for_each_app {A B} (body : A -> B -> M F B) (xs ys : list A) acc s :
  for_each (xs ++ ys) body acc s
  = bind (for_each xs body acc) (for_each ys body) s.
Proof.
  revert acc s. induction xs as [|x xs IH]; intros acc s; [reflexivity|].
  cbn [app for_each]. unfold bind in *.
  destruct (body x acc s) as [[acc'|e] s']; [apply IH | reflexivity].
Qed.

(** With more timestamps than power values, the grouping loop reads
    [power_values[n]] for [n = len(power_values)] and raises. *)
Lemma group_by_hour_raises (power : list F) (timestamps : list datetime) s :
  length power < length timestamps ->
  group_by_hour power timestamps s
  = (Raise (out_of_bounds (length power) (length power)), s).
Proof.
  intros Hlen.
  destruct (lookup_lt_is_Some_2 timestamps (length power) Hlen) as [t Ht].
  unfold group_by_hour.
  rewrite <- (take_drop_middle timestamps (length power) t Ht).
  rewrite imap_app, for_each_app.
  destruct (group_loop power s (imap pair (take (length power) timestamps)))
    with (G0 := (∅ : gmap nat (list (nat * F)))) as (G & Hrun & _).
  { intros it (j & t' & -> & Ht')%elem_of_lookup_imap. simpl.
    apply lookup_lt_is_Some_2. apply lookup_lt_Some in Ht'.
    rewrite length_take in Ht'. lia. }
  rewrite (bind_ok _ _ _ _ _ Hrun).
  rewrite length_take, Nat.min_l by lia.
  cbn [imap for_each]. rewrite Nat.add_0_r.
  unfold bind at 1. unfold bind at 1. unfold ndarray_getitem.
  now rewrite (lookup_ge_None_2 power (length power)) by lia.
Qed.

(** X10. On a constructed detector, when the data points carry at least 48
    power values and more timestamps than power values, the seasonal
    detector's grouping loop raises [IndexError] at the first surplus
    timestamp; [detect_anomalies_in_data] then returns the empty list,
    dropping what the statistical and trend detectors had found, and logs
    one line that names the device and the exception. *)
Theorem surplus_timestamps_discard_all
    device_id (data_points : list (DataPoint F)) (s : state F) :
  let power := extract_power_values data_points in
  let timestamps := extract_timestamps data_points in
  after_init s ->
  48 <= length power ->
  length power < length timestamps ->
  _detect_seasonal_anomalies device_id power timestamps s
  = (Raise (out_of_bounds (length power) (length power)), s) /\
  detect_anomalies_in_data device_id data_points s
  = (Ok [],
     mk_state (self s)
       (logged s ++
        [failure_line device_id
           (out_of_bounds (length power) (length power))])).
Proof.
  intros power timestamps Hs H48 Hlen.
  assert (Hseas : _detect_seasonal_anomalies device_id power timestamps s
                  = (Raise (out_of_bounds (length power) (length power)), s)).
  { unfold _detect_seasonal_anomalies.
    destruct (Nat.ltb_spec (length power) 48); [lia|].
    now rewrite (bind_raise _ _ _ _ _
                   (group_by_hour_raises power timestamps s Hlen)). }
  split; [exact Hseas|].
  unfold detect_anomalies_in_data.
  pose proof (length_omap_le dp_power_w data_points) as Hle.
  fold (extract_power_values data_points) in Hle. fold power in Hle.
  destruct (Nat.ltb_spec (length data_points) 10); [lia|].
  unfold try_except. cbv zeta. fold power timestamps.
  destruct (Nat.ltb_spec (length power) 10); [lia|].
  rewrite (bind_ok _ _ _ _ _
             (statistical_run device_id power timestamps s Hs ltac:(lia))).
  rewrite (bind_ok _ _ _ _ _
             (trend_run device_id power timestamps s ltac:(lia))).
  now rewrite (bind_raise _ _ _ _ _ Hseas).
Qed.

(** *** A threshold that is missing *)

(** One turn of the statistical detector's loop when the instance has no
    ['high'] threshold. *)
Lemma statistical_turn_no_high device_id (power : list F) timestamps s i acc :
  anomaly_thresholds (self s) !! "high" = None ->
  i < length power ->
  let window_size := Nat.min 24 (length power / 2) in
  let window_data := slice power (i - window_size) i in
  let std := np_std window_data in
  let turn :=
    (if feqb std (lit 0) then ret acc
     else
       x <- ndarray_getitem power i ;;
       let z_score := fdiv (fabs (fsub x (np_mean window_data))) std in
       sev <- determine_severity z_score ;;
       match sev with
       | None => ret acc
       | Some severity =>
           ts <- list_getitem timestamps i ;;
           p <- ndarray_getitem power i ;;
           ret (acc ++
                [mk_result device_id ts p z_score severity "statistical"
                   (py_min (lit 0.95) (fdiv z_score (lit 5)))
                   ("Power consumption " +:+ fmt1 z_score +:+
                    " standard deviations above normal")])
       end) in
  (feqb std (lit 0) = false -> turn s = (Raise (KeyError "high"), s)) /\
  ((exists acc', turn s = (Ok acc', s)) \/
   turn s = (Raise (KeyError "high"), s)).
Proof.
  intros Hhigh Hi. cbv zeta.
  destruct (lookup_lt_is_Some_2 power i Hi) as [x Hx].
  assert (Hraise :
            forall z, determine_severity z s = (Raise (KeyError "high"), s)).
  { intros z. unfold determine_severity, bind, threshold. now rewrite Hhigh. }
  destruct (feqb _ (lit 0)) eqn:Estd.
  { split; [discriminate | left; eauto]. }
  rewrite (bind_ok _ _ _ _ _ (ndarray_getitem_ok _ _ _ _ Hx)).
  rewrite (bind_raise _ _ _ _ _ (Hraise _)).
  split; [|right]; reflexivity.
Qed.

(** X11. When the instance's threshold table has no ['high'] entry and some
    window of the statistical detector has a non-zero standard deviation,
    the detector raises [KeyError('high')]; [detect_anomalies_in_data] then
    returns the empty list and logs one line that names the device and the
    missing key. *)
Theorem missing_threshold_discards_all
    device_id (data_points : list (DataPoint F)) (s : state F) (i : nat) :
  let power := extract_power_values data_points in
  let timestamps := extract_timestamps data_points in
  let w := Nat.min 24 (length power / 2) in
  anomaly_thresholds (self s) !! "high" = None ->
  10 <= length power ->
  w <= i < length power ->
  feqb (np_std (slice power (i - w) i)) (lit 0) = false ->
  _detect_statistical_anomalies device_id power timestamps s
  = (Raise (KeyError "high"), s) /\
  detect_anomalies_in_data device_id data_points s
  = (Ok [],
     mk_state (self s)
       (logged s ++
        ["Anomaly detection failed for " +:+ device_id +:+ ": 'high'"])).
Proof.
  intros power timestamps w Hhigh Hlen Hi Hstd.
  assert (Hstat : _detect_statistical_anomalies device_id power timestamps s
                  = (Raise (KeyError "high"), s)).
  { unfold _detect_statistical_anomalies. cbv zeta.
    apply for_each_raises with (x := i).
    - now apply elem_of_range.
    - intros j acc Hj%elem_of_range.
      apply (statistical_turn_no_high device_id power timestamps s j acc Hhigh).
      lia.
    - intros acc.
      apply (statistical_turn_no_high device_id power timestamps s i acc Hhigh);
        [lia | exact Hstd]. }
  split; [exact Hstat|].
  unfold detect_anomalies_in_data.
  pose proof (length_omap_le dp_power_w data_points) as Hle.
  fold (extract_power_values data_points) in Hle. fold power in Hle.
  destruct (Nat.ltb_spec (length data_points) 10); [lia|].
  unfold try_except. cbv zeta. fold power timestamps.
  destruct (Nat.ltb_spec (length power) 10); [lia|].
  now rewrite (bind_raise _ _ _ _ _ Hstat).
Qed.

End RunLaws.

End RunProperties.

(** * The seasonal z-score in exact arithmetic

    A reading is one of the samples of its own hour, so its distance from
    the hour's mean is bounded by the hour's standard deviation:
    [|x - mean| <= sqrt (n - 1) * std] for a group of [n] samples. *)

Module SampleBound.

Import RealNum.

Lemma Rsum_app (l1 l2 : list R) : Rsum (l1 ++ l2) = (Rsum l1 + Rsum l2)%R.
Proof.
  unfold Rsum. induction l1 as [|a l1 IH]; cbn [app fold_right]; [lra|].
  rewrite IH. lra.
Qed.

Lemma Rsum_shift (m : R) (l : list R) :
  Rsum (map (fun y => (y - m)%R) l) = (Rsum l - INR (length l) * m)%R.
Proof.
  unfold Rsum. induction l as [|a l IH].
  - simpl. lra.
  - cbn [map fold_right length]. rewrite IH, S_INR. lra.
Qed.

Lemma Rsum_squares_nonneg (f : R -> R) (l : list R) :
  (0 <= Rsum (map (fun y => (f y * f y)%R) l))%R.
Proof.
  unfold Rsum. induction l as [|a l IH]; cbn [map fold_right]; [lra|].
  pose proof (Rle_0_sqr (f a)) as Hsq. unfold Rsqr in Hsq. lra.
Qed.

Lemma Rsum_square_expand (x : R) (l : list R) :
  Rsum (map (fun y => ((y - x) * (y - x))%R) l)
  = (Rsum (map (fun y => (y * y)%R) l) - 2 * x * Rsum l
     + INR (length l) * (x * x))%R.
Proof.
  unfold Rsum. induction l as [|a l IH].
  - simpl. lra.
  - cbn [map fold_right length]. rewrite IH, S_INR. lra.
Qed.

(** The square of a sum is at most the count times the sum of the squares. *)
Lemma sum_square_le (l : list R) :
  (Rsum l * Rsum l <= INR (length l) * Rsum (map (fun y => (y * y)%R) l))%R.
Proof.
  induction l as [|x l IH].
  - unfold Rsum. simpl. lra.
  - pose proof (Rsum_squares_nonneg (fun y => (y - x)%R) l) as Hsq.
    cbv beta in Hsq. rewrite Rsum_square_expand in Hsq.
    unfold Rsum in *. cbn [map fold_right length]. rewrite S_INR.
    set (sm := fold_right Rplus 0%R l) in *.
    set (q := fold_right Rplus 0%R (map (fun y => (y * y)%R) l)) in *.
    set (k := INR (length l)) in *.
    nra.
Qed.

(** The squared distance of a sample from the mean is at most [n - 1] times
    the variance. *)
Lemma deviation_bound (l : list R) (x : R) :
  In x l ->
  ((x - mean l) * (x - mean l)
   <= (INR (length l) - 1) *
      mean (map (fun y => ((y - mean l) * (y - mean l))%R) l))%R.
Proof.
  intros Hin. set (m := mean l).
  assert (Hm : (INR (length l) * m = Rsum l)%R).
  { subst m. unfold mean. field.
    destruct l; [destruct Hin|]. apply not_0_INR. discriminate. }
  clearbody m.
  apply in_split in Hin as (l1 & l2 & ->).
  unfold mean. rewrite length_map, !Rsum_app, !map_app, !length_app in *.
  cbn [map length] in *. rewrite !Rsum_app.
  change (Rsum (x :: l2)) with (x + Rsum l2)%R in *.
  change (Rsum (((x - m) * (x - m))%R ::
                map (fun y => ((y - m) * (y - m))%R) l2))
    with ((x - m) * (x - m)
          + Rsum (map (fun y => ((y - m) * (y - m))%R) l2))%R.
  rewrite Nat.add_succ_r, S_INR, <- length_app in *.
  pose proof (sum_square_le (map (fun y => (y - m)%R) (l1 ++ l2))) as Hcs.
  rewrite Rsum_shift, length_map, map_map, map_app, !Rsum_app in Hcs.
  pose proof (pos_INR (length (l1 ++ l2))) as Hk.
  set (k := INR (length (l1 ++ l2))) in *.
  set (q1 := Rsum (map (fun y => ((y - m) * (y - m))%R) l1)) in *.
  set (q2 := Rsum (map (fun y => ((y - m) * (y - m))%R) l2)) in *.
  set (s1 := Rsum l1) in *. set (s2 := Rsum l2) in *.
  set (e := ((x - m) * (x - m))%R).
  assert (He : (e <= k * (q1 + q2))%R).
  { replace (s1 + s2 - k * m)%R with (m - x)%R in Hcs by lra.
    subst e. lra. }
  apply (Rmult_le_reg_r (k + 1)); [lra|].
  replace ((k + 1 - 1) * ((q1 + (e + q2)) / (k + 1)) * (k + 1))%R
    with (k * (q1 + (e + q2)))%R by (field; lra).
  lra.
Qed.

(** With fewer than ten samples, the z-score of a sample is below 3. *)
Lemma zscore_below_three (l : list R) (x : R) :
  In x l -> length l < 10 -> std l <> 0%R ->
  (Rabs (x - mean l) / std l < 3)%R.
Proof.
  intros Hin Hlen Hstd.
  pose proof (deviation_bound l x Hin) as Hdev.
  unfold std in *.
  set (var := mean (map (fun y => ((y - mean l) * (y - mean l))%R) l)) in *.
  assert (Hvar : (0 < var)%R).
  { destruct (Rlt_le_dec 0 var) as [Hpos|Hneg]; [exact Hpos|].
    exfalso. apply Hstd. now apply sqrt_neg_0. }
  pose proof (sqrt_lt_R0 var Hvar) as Hsd.
  pose proof (sqrt_sqrt var (Rlt_le _ _ Hvar)) as Hsq.
  apply lt_INR in Hlen. replace (INR 10) with 10%R in Hlen by (simpl; lra).
  set (sd := sqrt var) in *.
  apply (Rmult_lt_reg_r sd); [exact Hsd|].
  replace (Rabs (x - mean l) / sd * sd)%R with (Rabs (x - mean l))
    by (field; lra).
  assert (Habs : (Rabs (x - mean l) * Rabs (x - mean l)
                  = (x - mean l) * (x - mean l))%R).
  { unfold Rabs. destruct (Rcase_abs _); lra. }
  pose proof (Rabs_pos (x - mean l)) as Hnn.
  set (a := Rabs (x - mean l)) in *.
  set (d := ((x - mean l) * (x - mean l))%R) in *.
  destruct (Rlt_le_dec a (3 * sd)) as [Hlt|Hge]; [exact Hlt|].
  exfalso. assert (H9 : (9 * var <= a * a)%R) by nra. nra.
Qed.

End SampleBound.

(** X12. In exact arithmetic, on a constructed detector and one timestamp per
    reading, every anomaly the seasonal detector returns falls in an hour of
    the day that has at least ten readings in the series: a reading is part
    of its own hour's baseline, which keeps its z-score below 3 in a smaller
    group. *)
Theorem seasonal_anomaly_needs_ten_samples
    device_id (power : list R) (timestamps : list datetime) (s : state R) :
  after_init s ->
  length timestamps = length power ->
  exists out,
    _detect_seasonal_anomalies device_id power timestamps s = (Ok out, s) /\
    Forall
      (fun r =>
         10 <= length (hour_readings power timestamps (hour (timestamp r))))
      out.
Proof.
  intros Hs Hlen. eexists. split.
  { exact (seasonal_run (laws:=R_laws) device_id power timestamps s Hs Hlen). }
  destruct (_ <? 48); [constructor|].
  apply Forall_forall. intros r Hr%list_elem_of_In.
  apply in_flat_map in Hr as (i & _ & Hr).
  unfold spec_seasonal_at in Hr.
  destruct (power !! i) as [p|] eqn:Hp; [|destruct Hr].
  destruct (timestamps !! i) as [t|] eqn:Ht; [|destruct Hr].
  cbv zeta in Hr.
  destruct (_ <? 3); [destruct Hr|].
  destruct (feqb _ _) eqn:Estd; [destruct Hr|].
  destruct (fgeb _ (lit 3)) eqn:Ez; [|destruct Hr].
  destruct Hr as [<-|[]]. cbn [timestamp].
  assert (Hin : In p (hour_readings power timestamps (hour t))).
  { unfold hour_readings.
    apply (in_map snd _ (t, p)), filter_In. split.
    - apply list_elem_of_In, (list_elem_of_lookup_2 _ i).
      apply lookup_zip_with_Some. now exists t, p.
    - apply Nat.eqb_refl. }
  destruct (Nat.le_gt_cases 10
              (length (hour_readings power timestamps (hour t))))
    as [Hge|Hlt]; [exact Hge|].
  exfalso.
  assert (Hstd : np_std (hour_readings power timestamps (hour t)) <> 0%R).
  { intros E. simpl in Estd. unfold RealNum.Reqb in Estd.
    rewrite RealLaws.Q2R_zero in Estd.
    destruct (Req_dec_T _ _); [discriminate | contradiction]. }
  pose proof (SampleBound.zscore_below_three _ p Hin Hlt Hstd) as Hz.
  unfold fgeb in Ez. simpl in Ez. apply RealLaws.Rleb_true in Ez.
  replace (Q2R 3) with 3%R in Ez by (unfold Q2R; simpl; lra).
  simpl in Hz. lra.
Qed.

(** * The further properties at concrete inputs *)

(** On [late_jump_input] index 9 is flagged and has no timestamp. *)
Lemma missing_timestamp_discards_all_witness :
  let power := extract_power_values late_jump_input in
  let timestamps := extract_timestamps late_jump_input in
  after_init (constructed PrimFloat.float) /\
  10 <= length power /\
  Nat.min 24 (length power / 2) <= 9 < length power /\
  statistical_flags power 9 = true /\
  length timestamps <= 9 /\
  detect_anomalies_in_data "meter-1" late_jump_input
    (constructed PrimFloat.float)
  = (Ok [],
     mk_state (self (constructed PrimFloat.float))
       (logged (constructed PrimFloat.float) ++
        [failure_line "meter-1" (IndexError "list index out of range")])).
Proof.
  cbv zeta.
  pose proof (after_init_constructed PrimFloat.float) as H1.
  assert (H2 : 10 <= length (extract_power_values late_jump_input))
    by (vm_compute; lia).
  assert (H3 : Nat.min 24 (length (extract_power_values late_jump_input) / 2)
               <= 9 < length (extract_power_values late_jump_input))
    by (vm_compute; lia).
  assert (H4 : statistical_flags (extract_power_values late_jump_input) 9 = true)
    by (vm_compute; reflexivity).
  assert (H5 : length (extract_timestamps late_jump_input) <= 9)
    by (vm_compute; lia).
  split; [exact H1|]. split; [exact H2|]. split; [exact H3|].
  split; [exact H4|]. split; [exact H5|].
  exact (proj2 (missing_timestamp_discards_all "meter-1" late_jump_input
                  (constructed PrimFloat.float) 9 H1 H2 H3 H4 H5)).
Defined.

(** The results for ten valid points over the reals. *)
Lemma results_well_formed_witness :
  exists out,
    fst (detect_anomalies_in_data "meter-1" (ramp_points R 10) (constructed R))
    = Ok out /\
    Forall (fun r => device_id r = "meter-1" /\ assigned_label r /\
                     fleb (confidence r) (lit 0.95) = true) out.
Proof.
  exact (results_well_formed (laws:=R_laws) "meter-1" (ramp_points R 10)
           (constructed R)).
Defined.

(** The z-scores 2.5 and 3.5 on a detector constructed over the reals. *)
Lemma severity_monotone_any_thresholds_witness :
  fleb (F:=R) (lit 2.5) (lit 3.5) = true /\
  determine_severity (lit 2.5) (constructed R)
  = (Ok (Some "low"), constructed R) /\
  determine_severity (lit 3.5) (constructed R)
  = (Ok (Some "medium"), constructed R) /\
  severity_rank "low" <= severity_rank "medium".
Proof.
  assert (H1 : fleb (F:=R) (lit 2.5) (lit 3.5) = true)
    by (rewrite (lit_fleb (NumLaws:=R_laws)); reflexivity).
  assert (H2 : determine_severity (lit 2.5) (constructed R)
               = (Ok (Some "low"), constructed R)).
  { rewrite (determine_severity_after_init _ _ (after_init_constructed R)).
    unfold severity_chain, fgeb.
    rewrite !(lit_fleb (NumLaws:=R_laws)). reflexivity. }
  assert (H3 : determine_severity (lit 3.5) (constructed R)
               = (Ok (Some "medium"), constructed R)).
  { rewrite (determine_severity_after_init _ _ (after_init_constructed R)).
    unfold severity_chain, fgeb.
    rewrite !(lit_fleb (NumLaws:=R_laws)). reflexivity. }
  split; [exact H1|]. split; [exact H2|]. split; [exact H3|].
  exact (severity_monotone_any_thresholds (laws:=R_laws) (constructed R)
           (constructed R) (constructed R) (lit 2.5) (lit 3.5)
           "low" "medium" H1 H2 H3).
Defined.

(** The statistical detector and the score on ten readings [0, 1, ..., 9]
    over the reals. *)
Lemma score_agrees_with_detector_witness :
  10 <= length (np_arange (F:=R) 10) /\
  length (hourly 10) = length (np_arange (F:=R) 10) /\
  after_init (constructed R) /\
  exists out,
    _detect_statistical_anomalies "meter-1" (np_arange 10) (hourly 10)
      (constructed R) = (Ok out, constructed R) /\
    Forall
      (fun r =>
         exists i,
           5 <= i < 10 /\
           np_arange 10 !! i = Some (power_w r) /\
           hourly 10 !! i = Some (timestamp r) /\
           calculate_anomaly_score (power_w r) (slice (np_arange 10) (i - 5) i)
             "zscore" (constructed R)
           = (Ok (anomaly_score r), constructed R))
      out.
Proof.
  assert (H1 : 10 <= length (np_arange (F:=R) 10)) by (simpl; lia).
  assert (H2 : length (hourly 10) = length (np_arange (F:=R) 10)) by reflexivity.
  pose proof (after_init_constructed R) as H3.
  split; [exact H1|]. split; [exact H2|]. split; [exact H3|].
  exact (score_agrees_with_detector (laws:=R_laws) "meter-1" (np_arange 10)
           (hourly 10) (constructed R) H1 H2 H3).
Defined.

(** The pairing for ten valid points over the reals. *)
Lemma results_pair_valid_points_witness :
  after_init (constructed R) /\
  Forall (fun dp => valid_point dp = true) (ramp_points R 10) /\
  10 <= length (ramp_points R 10) /\
  exists out,
    detect_anomalies_in_data "meter-1" (ramp_points R 10) (constructed R)
    = (Ok out, constructed R) /\
    Forall
      (fun r =>
         exists i dp,
           ramp_points R 10 !! i = Some dp /\
           dp_power_w dp = Some (power_w r) /\
           dp_timestamp dp = Some (timestamp r))
      out.
Proof.
  pose proof (after_init_constructed R) as H1.
  assert (H2 : Forall (fun dp => valid_point dp = true) (ramp_points R 10))
    by (repeat constructor).
  assert (H3 : 10 <= length (ramp_points R 10)) by (simpl; lia).
  split; [exact H1|]. split; [exact H2|]. split; [exact H3|].
  exact (results_pair_valid_points (laws:=R_laws) "meter-1" (ramp_points R 10)
           (constructed R) H1 H2 H3).
Defined.

(** The bound for fifty valid points over the reals: at most 120 results. *)
Lemma results_count_bound_witness :
  after_init (constructed R) /\
  Forall (fun dp => valid_point dp = true) (ramp_points R 50) /\
  10 <= length (ramp_points R 50) /\
  exists out,
    detect_anomalies_in_data "meter-1" (ramp_points R 50) (constructed R)
    = (Ok out, constructed R) /\
    length out <= 120.
Proof.
  pose proof (after_init_constructed R) as H1.
  assert (H2 : Forall (fun dp => valid_point dp = true) (ramp_points R 50))
    by (repeat constructor).
  assert (H3 : 10 <= length (ramp_points R 50)) by (simpl; lia).
  split; [exact H1|]. split; [exact H2|]. split; [exact H3|].
  destruct (results_count_bound (laws:=R_laws) "meter-1" (ramp_points R 50)
              (constructed R) H1 H2 H3) as (out & Hrun & Hle).
  exists out. split; [exact Hrun|].
  exact (Nat.le_trans _ _ _ Hle (Nat.eq_le_incl _ _ eq_refl)).
Defined.

(** One day of timestamps against two days of readings over the reals. *)
Lemma hourly_baselines_table_witness :
  length (hourly 24) <= length (np_arange (F:=R) 48) /\
  exists G,
    group_by_hour (np_arange 48) (hourly 24) (constructed R)
    = (Ok G, constructed R) /\
    forall h,
      baselines_of G !! h
      = (if 3 <=? length (hour_readings (np_arange (F:=R) 48) (hourly 24) h)
         then Some (mk_baseline
                      (np_mean (hour_readings (np_arange 48) (hourly 24) h))
                      (np_std (hour_readings (np_arange 48) (hourly 24) h)))
         else None).
Proof.
  assert (H1 : length (hourly 24) <= length (np_arange (F:=R) 48))
    by (simpl; lia).
  split; [exact H1|].
  destruct (hourly_baselines_table (np_arange 48) (hourly 24) (constructed R) H1)
    as (G & Hrun & HG).
  exists G. split; [exact Hrun|]. intros h. exact (proj2 (HG h)).
Defined.

(** On [surplus_timestamp_points] there are 48 power values and 49
    timestamps. *)
Lemma surplus_timestamps_discard_all_witness :
  let power := extract_power_values (surplus_timestamp_points R) in
  let timestamps := extract_timestamps (surplus_timestamp_points R) in
  after_init (constructed R) /\
  48 <= length power /\
  length power < length timestamps /\
  detect_anomalies_in_data "meter-1" (surplus_timestamp_points R) (constructed R)
  = (Ok [],
     mk_state (self (constructed R))
       (logged (constructed R) ++
        [failure_line "meter-1"
           (out_of_bounds (length power) (length power))])).
Proof.
  cbv zeta.
  pose proof (after_init_constructed R) as H1.
  assert (E1 : length (extract_power_values (surplus_timestamp_points R)) = 48)
    by reflexivity.
  assert (E2 : length (extract_timestamps (surplus_timestamp_points R)) = 49)
    by reflexivity.
  assert (H2 : 48 <= length (extract_power_values (surplus_timestamp_points R)))
    by (rewrite E1; lia).
  assert (H3 : length (extract_power_values (surplus_timestamp_points R))
               < length (extract_timestamps (surplus_timestamp_points R)))
    by (rewrite E1, E2; lia).
  split; [exact H1|]. split; [exact H2|]. split; [exact H3|].
  exact (proj2 (surplus_timestamps_discard_all (laws:=R_laws) "meter-1"
                  (surplus_timestamp_points R) (constructed R) H1 H2 H3)).
Defined.

(** On [misaligned_input] and a detector without the ['high'] threshold, the
    window before index 5 has a non-zero standard deviation. *)
Lemma missing_threshold_discards_all_witness :
  let power := extract_power_values misaligned_input in
  anomaly_thresholds (self (without_high PrimFloat.float)) !! "high" = None /\
  10 <= length power /\
  Nat.min 24 (length power / 2) <= 5 < length power /\
  feqb (np_std (slice power (5 - Nat.min 24 (length power / 2)) 5)) (lit 0)
  = false /\
  detect_anomalies_in_data "meter-1" misaligned_input
    (without_high PrimFloat.float)
  = (Ok [],
     mk_state (self (without_high PrimFloat.float))
       (logged (without_high PrimFloat.float) ++
        ["Anomaly detection failed for meter-1: 'high'"])).
Proof.
  cbv zeta.
  assert (H1 : anomaly_thresholds (self (without_high PrimFloat.float)) !! "high"
               = None) by (vm_compute; reflexivity).
  assert (H2 : 10 <= length (extract_power_values misaligned_input))
    by (vm_compute; lia).
  assert (H3 : Nat.min 24 (length (extract_power_values misaligned_input) / 2)
               <= 5 < length (extract_power_values misaligned_input))
    by (vm_compute; lia).
  assert (H4 : feqb (np_std
                 (slice (extract_power_values misaligned_input)
                    (5 - Nat.min 24
                           (length (extract_power_values misaligned_input) / 2))
                    5)) (lit 0) = false)
    by (vm_compute; reflexivity).
  split; [exact H1|]. split; [exact H2|]. split; [exact H3|]. split; [exact H4|].
  exact (proj2 (missing_threshold_discards_all "meter-1" misaligned_input
                  (without_high PrimFloat.float) 5 H1 H2 H3 H4)).
Defined.

(** Two days of hourly readings over the reals: two readings an hour. *)
Lemma seasonal_anomaly_needs_ten_samples_witness :
  after_init (constructed R) /\
  length (hourly 48) = length (np_arange (F:=R) 48) /\
  exists out,
    _detect_seasonal_anomalies "meter-1" (np_arange 48) (hourly 48)
      (constructed R) = (Ok out, constructed R) /\
    Forall
      (fun r =>
         10 <= length (hour_readings (np_arange (F:=R) 48) (hourly 48)
                         (hour (timestamp r))))
      out.
Proof.
  pose proof (after_init_constructed R) as H1.
  assert (H2 : length (hourly 48) = length (np_arange (F:=R) 48)) by reflexivity.
  split; [exact H1|]. split; [exact H2|].
  exact (seasonal_anomaly_needs_ten_samples "meter-1" (np_arange 48) (hourly 48)
           (constructed R) H1 H2).
Defined.
